(** * Air data module of the paparazzi autopilot

    A shallow embedding of [sw/airborne/modules/air_data/air_data.c] and
    the properties of its state machine: the three sensor callbacks bound
    on the ABI event bus, the baro watchdog, the QNH setter, the altitude
    accessor and the airspeed conversions.

    C [float] values are IEEE-754 binary32 numbers, modelled with the
    executable specification of the Standard Library ([spec_float] with
    24 bits of precision); C [double] constants are binary64. *)

From Stdlib Require Import ZArith Bool List Lia.
From Stdlib Require Import Floats.SpecFloat.
Import ListNotations.

Local Open Scope Z_scope.

(** ** Machine numbers *)

Module F32.
Definition prec : Z := 24.
Definition emax : Z := 128.

Definition float : Type := spec_float.

Definition valid (x : float) : bool := valid_binary prec emax x.

Definition zero : float := S754_zero false.
(** The literal [100.f]. *)
Definition hundred : float := S754_finite false 13107200 (-17).
(** The literal [1.0] once stored in a [float]. *)
Definition one : float := S754_finite false 8388608 (-23).

Definition mul : float -> float -> float := SFmul prec emax.
Definition div : float -> float -> float := SFdiv prec emax.
Definition sqrtf : float -> float := SFsqrt prec emax.

(** The C comparisons [a > b], [a < b], [a <= b]; all false on NaN. *)
Definition gt (a b : float) : bool := SFltb b a.
Definition lt (a b : float) : bool := SFltb a b.
Definition le (a b : float) : bool := SFleb a b.

(** Conversion of the [int] literal [0] to [float]. *)
Definition of_int_0 : float := S754_zero false.
End F32.

Module F64.
Definition prec : Z := 53.
Definition emax : Z := 1024.

Definition double : Type := spec_float.

Definition add : double -> double -> double := SFadd prec emax.
Definition mul : double -> double -> double := SFmul prec emax.
Definition div : double -> double -> double := SFdiv prec emax.

(** The literal [2.0]. *)
Definition two : double := S754_finite false 4503599627370496 (-51).
(** The literal [274.15]. *)
Definition c274_15 : double := S754_finite false 4822897804076646 (-44).

(** Promotion of a [float] to [double] (exact). *)
Definition of_float (x : F32.float) : double :=
    match x with
    | S754_finite s m e => binary_round prec emax s m e
    | _ => x
    end.

(** Conversion of a [double] to [float] (round to nearest even). *)
Definition to_float (x : double) : F32.float :=
    match x with
    | S754_finite s m e => binary_round F32.prec F32.emax s m e
    | _ => x
    end.
End F64.

Arguments F32.mul : simpl never.
Arguments F32.div : simpl never.
Arguments F32.sqrtf : simpl never.
Arguments F32.gt : simpl never.
Arguments F64.add : simpl never.
Arguments F64.mul : simpl never.
Arguments F64.div : simpl never.
Arguments F64.of_float : simpl never.
Arguments F64.to_float : simpl never.

Abbreviation float := F32.float.
Abbreviation double := F64.double.

(** ** Rounding, as arithmetic on integers

    The rounding of [SpecFloat] works on a mantissa with a round bit and
    a sticky bit.  Its steps are described here on one integer, the key
    [4 * m + c], where [c] in [0..3] encodes the position of the exact
    value between [m] and [m + 1]: on [m], below the middle, on the
    middle, above the middle. *)

Definition loc_code (l : location) : Z :=
  match l with
  | loc_Exact => 0
  | loc_Inexact Lt => 1
  | loc_Inexact Eq => 2
  | loc_Inexact Gt => 3
  end.

Definition key (m : Z) (l : location) : Z := 4 * m + loc_code l.

Definition rec_key (mrs : shr_record) : Z :=
  4 * shr_m mrs + (if shr_r mrs then 2 else 0) + (if shr_s mrs then 1 else 0).

(** One right shift that keeps the sticky bit: the effect of [shr_1] on
    the key. *)
Definition sticky_half (k : Z) : Z :=
  k / 2 + (if k mod 4 =? 1 then 1 else 0).

Definition sticky_shift (n : nat) (k : Z) : Z := Nat.iter n sticky_half k.

(** Round to nearest, ties to even: the effect of [round_nearest_even]
    on the key. *)
Definition rne_key (k : Z) : Z :=
  k / 4 + (if (k mod 4 =? 3) || ((k mod 4 =? 2) && Z.odd (k / 4)) then 1 else 0).

(** The end of [binary_round_aux] for binary32: a rounded mantissa [m] in
    [0 .. 2^24] at exponent [t] becomes a zero, a finite number (after
    one more shift when [m] is [2^24]) or an infinity. *)
Definition finish (s : bool) (m t : Z) : spec_float :=
  if m =? 0 then S754_zero s
  else if m =? 16777216 then
    (if t + 1 <=? 104 then S754_finite s 8388608 (t + 1) else S754_infinity s)
  else
    (if t <=? 104 then S754_finite s (Z.to_pos m) t else S754_infinity s).

(** Target exponent of a mantissa [m] at exponent [e], and the rounding
    of a located mantissa to it. *)
Definition target (m e : Z) : Z := fexp F32.prec F32.emax (Zdigits2 m + e).

Definition round_key (s : bool) (k e : Z) : spec_float :=
  let t := target (k / 4) e in
  finish s (rne_key (sticky_shift (Z.to_nat (t - e)) k)) t.

(** The located integer square root: the key of [sqrt y]. *)
Definition sqrt_key (y : Z) : Z :=
  let q := Z.sqrt y in
  let r := y - q * q in
  4 * q + (if r =? 0 then 0 else if r <=? q then 1 else 3).

(** Floats that are zero of either sign, positive and finite, or plus
    infinity; with a canonical mantissa in the finite case. *)
Definition nonneg_float (x : spec_float) : bool :=
  match x with
  | S754_zero false => true
  | S754_infinity false => true
  | S754_finite false m e => bounded F32.prec F32.emax m e
  | _ => false
  end.

(** Exponent at which [SFsqrt] takes the integer square root of a
    mantissa [m] at exponent [e]. *)
Definition sqrt_exp (m e : Z) : Z :=
  Z.min (fexp F32.prec F32.emax (Z.div2 (Zdigits2 m + e + 1))) (Z.div2 e).

(** Positive finite binary32 numbers with a canonical mantissa. *)
Definition positive_finite (x : spec_float) : bool :=
  match x with
  | S754_finite false m e => bounded F32.prec F32.emax m e
  | _ => false
  end.

(** Numbers that are neither negative nor NaN, whatever their mantissa. *)
Definition is_nonneg (x : spec_float) : bool :=
  match x with
  | S754_zero false | S754_infinity false | S754_finite false _ _ => true
  | _ => false
  end.

(** [uint8_t] arithmetic: the decrement wraps modulo 256. *)
Definition uint8_dec (c : Z) : Z := (c - 1) mod 256.

(** ** Data model *)

(** [struct AirData], the fields [air_data.c] reads or writes. *)
Record AirData : Type := mkAirData {
  pressure : float;
  differential : float;
  temperature : float;
  airspeed : float;
  tas_factor : float;
  qnh : float;
  amsl_baro : float;
  amsl_baro_valid : bool;
  calc_airspeed : bool;
  calc_qnh_once : bool;
  calc_tas_factor : bool;
  calc_amsl_baro : bool
}.

(** The three callbacks of the module, as the function pointers stored
    in ABI events. *)
Inductive abi_callback : Type :=
| pressure_abs_cb_ptr
| pressure_diff_cb_ptr
| temperature_cb_ptr.

(** The ABI message classes the module deals with. *)
Inductive abi_msg : Type :=
| ABI_BARO_ABS
| ABI_BARO_DIFF
| ABI_TEMPERATURE.

(** One bound [abi_event]: the queue it hangs on, the sender filter and
    the callback. *)
Record abi_event : Type := mkEvent {
  ev_msg : abi_msg;
  ev_id : Z;
  ev_cb : abi_callback
}.

(** The part of the vehicle state store ([state.h]) the module uses. *)
Record State : Type := mkState {
  global_coordinate_valid : bool;
  lla_alt : float;
  state_airspeed : float
}.

(** The stores a run performs that the outside can observe: every
    assignment to [air_data.qnh], tagged with the place it comes from,
    and every call of [stateSetAirspeed_f]. *)
Inductive qnh_site : Type := AutoCapture | External.

Inductive effect : Type :=
| StoreQnh (site : qnh_site) (v : float)
| SetAirspeed (v : float).

(** The whole memory the module works on: the global [air_data], the two
    file-static variables, the ABI queues, the vehicle state store and
    the history of observable stores (most recent first). *)
Record World : Type := mkWorld {
  air_data : AirData;
  qnh_set : bool;
  baro_health_counter : Z;
  abi_queues : list abi_event;
  state : State;
  history : list effect
}.

(** Compile-time configuration: the macros guarded by [#ifndef]. *)
Record Config : Type := mkConfig {
  AIR_DATA_BARO_ABS_ID : Z;
  AIR_DATA_BARO_DIFF_ID : Z;
  AIR_DATA_TEMPERATURE_ID : Z;
  AIR_DATA_TAS_FACTOR : float;
  AIR_DATA_CALC_AIRSPEED : bool;
  AIR_DATA_CALC_TAS_FACTOR : bool;
  AIR_DATA_CALC_AMSL_BARO : bool
}.

(** Field updates of [air_data] and of the world. *)
Definition set_pressure v a := mkAirData v (differential a) (temperature a) (airspeed a) (tas_factor a) (qnh a) (amsl_baro a) (amsl_baro_valid a) (calc_airspeed a) (calc_qnh_once a) (calc_tas_factor a) (calc_amsl_baro a).
Definition set_differential v a := mkAirData (pressure a) v (temperature a) (airspeed a) (tas_factor a) (qnh a) (amsl_baro a) (amsl_baro_valid a) (calc_airspeed a) (calc_qnh_once a) (calc_tas_factor a) (calc_amsl_baro a).
Definition set_temperature v a := mkAirData (pressure a) (differential a) v (airspeed a) (tas_factor a) (qnh a) (amsl_baro a) (amsl_baro_valid a) (calc_airspeed a) (calc_qnh_once a) (calc_tas_factor a) (calc_amsl_baro a).
Definition set_airspeed v a := mkAirData (pressure a) (differential a) (temperature a) v (tas_factor a) (qnh a) (amsl_baro a) (amsl_baro_valid a) (calc_airspeed a) (calc_qnh_once a) (calc_tas_factor a) (calc_amsl_baro a).
Definition set_tas_factor v a := mkAirData (pressure a) (differential a) (temperature a) (airspeed a) v (qnh a) (amsl_baro a) (amsl_baro_valid a) (calc_airspeed a) (calc_qnh_once a) (calc_tas_factor a) (calc_amsl_baro a).
Definition set_qnh v a := mkAirData (pressure a) (differential a) (temperature a) (airspeed a) (tas_factor a) v (amsl_baro a) (amsl_baro_valid a) (calc_airspeed a) (calc_qnh_once a) (calc_tas_factor a) (calc_amsl_baro a).
Definition set_amsl_baro v a := mkAirData (pressure a) (differential a) (temperature a) (airspeed a) (tas_factor a) (qnh a) v (amsl_baro_valid a) (calc_airspeed a) (calc_qnh_once a) (calc_tas_factor a) (calc_amsl_baro a).
Definition set_amsl_baro_valid v a := mkAirData (pressure a) (differential a) (temperature a) (airspeed a) (tas_factor a) (qnh a) (amsl_baro a) v (calc_airspeed a) (calc_qnh_once a) (calc_tas_factor a) (calc_amsl_baro a).
Definition set_calc_airspeed v a := mkAirData (pressure a) (differential a) (temperature a) (airspeed a) (tas_factor a) (qnh a) (amsl_baro a) (amsl_baro_valid a) v (calc_qnh_once a) (calc_tas_factor a) (calc_amsl_baro a).
Definition set_calc_qnh_once v a := mkAirData (pressure a) (differential a) (temperature a) (airspeed a) (tas_factor a) (qnh a) (amsl_baro a) (amsl_baro_valid a) (calc_airspeed a) v (calc_tas_factor a) (calc_amsl_baro a).
Definition set_calc_tas_factor v a := mkAirData (pressure a) (differential a) (temperature a) (airspeed a) (tas_factor a) (qnh a) (amsl_baro a) (amsl_baro_valid a) (calc_airspeed a) (calc_qnh_once a) v (calc_amsl_baro a).
Definition set_calc_amsl_baro v a := mkAirData (pressure a) (differential a) (temperature a) (airspeed a) (tas_factor a) (qnh a) (amsl_baro a) (amsl_baro_valid a) (calc_airspeed a) (calc_qnh_once a) (calc_tas_factor a) v.

Definition upd_air_data (f : AirData -> AirData) (w : World) : World :=
  mkWorld (f (air_data w)) (qnh_set w) (baro_health_counter w) (abi_queues w) (state w) (history w).
Definition set_qnh_set (v : bool) (w : World) : World :=
  mkWorld (air_data w) v (baro_health_counter w) (abi_queues w) (state w) (history w).
Definition set_baro_health_counter (v : Z) (w : World) : World :=
  mkWorld (air_data w) (qnh_set w) v (abi_queues w) (state w) (history w).
Definition set_abi_queues (v : list abi_event) (w : World) : World :=
  mkWorld (air_data w) (qnh_set w) (baro_health_counter w) v (state w) (history w).
Definition set_state (v : State) (w : World) : World :=
  mkWorld (air_data w) (qnh_set w) (baro_health_counter w) (abi_queues w) v (history w).
Definition log_effect (e : effect) (w : World) : World :=
  mkWorld (air_data w) (qnh_set w) (baro_health_counter w) (abi_queues w) (state w) (e :: history w).

(** ** Concrete inputs

    Values on which the code is run in the examples below: the ISA
    constants of [math/pprz_isa.h], stand-ins for its two conversions
    (which are built on [powf] and are not evaluated here), the
    broadcast identifier, a configuration with the AMSL computation
    switched on and a vehicle state store with a valid position at
    altitude zero. *)
Module Sample.
Definition air_density : double := S754_finite false 5516909543528858 (-52).
Definition sea_level_pressure : double := S754_finite false 6963000980275200 (-36).
Definition sea_level_temp : double := S754_finite false 5069188408698470 (-44).
Definition ref_pressure_of_height (p h : float) : float := p.
Definition height_of_pressure (p ref : float) : float := F32.zero.
Definition broadcast : Z := 0.

(** The literals [101325.f], [1013.25f] and [647.f]. *)
Definition p101325 : float := S754_finite false 12969600 (-7).
Definition q1013_25 : float := S754_finite false 16601088 (-14).
Definition p647 : float := S754_finite false 10600448 (-14).

Definition cfg_amsl : Config :=
  {| AIR_DATA_BARO_ABS_ID := broadcast;
     AIR_DATA_BARO_DIFF_ID := broadcast;
     AIR_DATA_TEMPERATURE_ID := broadcast;
     AIR_DATA_TAS_FACTOR := F32.one;
     AIR_DATA_CALC_AIRSPEED := true;
     AIR_DATA_CALC_TAS_FACTOR := true;
     AIR_DATA_CALC_AMSL_BARO := true |}.

Definition fix_at_sea_level : State :=
  {| global_coordinate_valid := true; lla_alt := F32.zero; state_airspeed := F32.zero |}.
End Sample.

(** ** The module's code *)

Section AirDataCode.

(** What [air_data.c] takes from headers that are not part of the
    module: the ISA constants and conversions of [math/pprz_isa.h] and
    the broadcast identifier of [subsystems/abi.h]. *)
Variable PPRZ_ISA_AIR_DENSITY : double.
Variable PPRZ_ISA_SEA_LEVEL_PRESSURE : double.
Variable PPRZ_ISA_SEA_LEVEL_TEMP : double.
Variable pprz_isa_ref_pressure_of_height_full : float -> float -> float.
Variable pprz_isa_height_of_pressure_full : float -> float -> float.
Variable ABI_BROADCAST : Z.

(** Modelled from the spec: the [Max] macro of [std.h], which is not
    part of the module; the larger of its two arguments, written as
    the conditional expression [x > y ? x : y]. *)
Definition Max (x y : float) : float := if F32.gt x y then x else y.

(** Modelled from the spec: the accessors of the vehicle state store
    ([state.h]): validity of the global position fix, the altitude of
    the LLA position, and the airspeed setter. *)
Definition stateIsGlobalCoordinateValid (w : World) : bool :=
    global_coordinate_valid (state w).
Definition stateGetPositionLla_f_alt (w : World) : float :=
    lla_alt (state w).
Definition stateSetAirspeed_f (v : float) (w : World) : World :=
    log_effect (SetAirspeed v)
    (set_state (mkState (global_coordinate_valid (state w)) (lla_alt (state w)) v) w).

(** *** Airspeed conversions *)

Definition two_div_rho_0 : float :=
    F64.to_float (F64.div F64.two PPRZ_ISA_AIR_DENSITY).

Definition eas_from_dynamic_pressure (q : float) : float :=
    F32.sqrtf (Max (F32.mul q two_div_rho_0) F32.of_int_0).

Definition get_tas_factor (p t : float) : float :=
    F32.sqrtf
    (F64.to_float
         (F64.div
            (F64.mul PPRZ_ISA_SEA_LEVEL_PRESSURE (F64.add (F64.of_float t) F64.c274_15))
            (F64.mul (F64.of_float p) PPRZ_ISA_SEA_LEVEL_TEMP))).

Definition tas_from_eas (w : World) (eas : float) : float :=
    F32.mul (tas_factor (air_data w)) eas.

Definition tas_from_dynamic_pressure (w : World) (q : float) : float :=
    tas_from_eas w (eas_from_dynamic_pressure q).

Arguments eas_from_dynamic_pressure : simpl never.
Arguments get_tas_factor : simpl never.
Arguments tas_from_dynamic_pressure : simpl never.

(** *** Sensor callbacks *)

Definition pressure_abs_cb (sender_id : Z) (p : float) (w : World) : World :=
    let w := upd_air_data (set_pressure p) w in
    let w :=
    if calc_qnh_once (air_data w) && stateIsGlobalCoordinateValid w then
        let h := stateGetPositionLla_f_alt w in
        let v := F32.div (pprz_isa_ref_pressure_of_height_full (pressure (air_data w)) h)
                         F32.hundred in
        let w := log_effect (StoreQnh AutoCapture v) (upd_air_data (set_qnh v) w) in
        let w := upd_air_data (set_calc_qnh_once false) w in
        set_qnh_set true w
    else w in
    let w :=
    if calc_amsl_baro (air_data w) && qnh_set w then
        let a := pprz_isa_height_of_pressure_full (pressure (air_data w))
                   (F32.mul (qnh (air_data w)) F32.hundred) in
        let w := upd_air_data (set_amsl_baro a) w in
        upd_air_data (set_amsl_baro_valid true) w
    else w in
    set_baro_health_counter 10 w.

Definition pressure_diff_cb (sender_id : Z) (p : float) (w : World) : World :=
    let w := upd_air_data (set_differential p) w in
    if calc_airspeed (air_data w) then
    let w := upd_air_data
                 (set_airspeed (tas_from_dynamic_pressure w (differential (air_data w)))) w in
    stateSetAirspeed_f (airspeed (air_data w)) w
    else w.

Definition temperature_cb (sender_id : Z) (temp : float) (w : World) : World :=
    let w := upd_air_data (set_temperature temp) w in
    if calc_tas_factor (air_data w) && (0 <? baro_health_counter w) then
    upd_air_data
        (set_tas_factor (get_tas_factor (pressure (air_data w)) (temperature (air_data w)))) w
    else w.

(** *** The ABI event bus *)

Definition run_callback (cb : abi_callback) : Z -> float -> World -> World :=
    match cb with
    | pressure_abs_cb_ptr => pressure_abs_cb
    | pressure_diff_cb_ptr => pressure_diff_cb
    | temperature_cb_ptr => temperature_cb
    end.

Definition abi_msg_eqb (a b : abi_msg) : bool :=
    match a, b with
    | ABI_BARO_ABS, ABI_BARO_ABS => true
    | ABI_BARO_DIFF, ABI_BARO_DIFF => true
    | ABI_TEMPERATURE, ABI_TEMPERATURE => true
    | _, _ => false
    end.

(** Modelled from the spec: the binding and sending functions that
    [subsystems/abi.h] generates per message; binding hangs an event
    with its sender filter and callback on the queue of the message,
    sending delivers [(sender_id, value)] to every event of that queue
    whose filter is the broadcast identifier or the sender. *)
Definition AbiBindMsg (msg : abi_msg) (id : Z) (cb : abi_callback) (w : World) : World :=
    set_abi_queues (mkEvent msg id cb :: abi_queues w) w.

Definition AbiBindMsgBARO_ABS := AbiBindMsg ABI_BARO_ABS.
Definition AbiBindMsgBARO_DIFF := AbiBindMsg ABI_BARO_DIFF.
Definition AbiBindMsgTEMPERATURE := AbiBindMsg ABI_TEMPERATURE.

Definition abi_matches (msg : abi_msg) (sender_id : Z) (e : abi_event) : bool :=
    abi_msg_eqb (ev_msg e) msg && ((ev_id e =? ABI_BROADCAST) || (ev_id e =? sender_id)).

(** The callbacks a message reaches, in queue order. *)
Definition abi_receivers (msg : abi_msg) (sender_id : Z) (w : World) : list abi_callback :=
    map ev_cb (filter (abi_matches msg sender_id) (abi_queues w)).

Definition AbiSendMsg (msg : abi_msg) (sender_id : Z) (v : float) (w : World) : World :=
    fold_left (fun w cb => run_callback cb sender_id v w) (abi_receivers msg sender_id w) w.

(** *** Initialisation, accessor, watchdog, QNH setter *)

Definition air_data_init (cfg : Config) (w : World) : World :=
    let w := upd_air_data (set_calc_airspeed (AIR_DATA_CALC_AIRSPEED cfg)) w in
    let w := upd_air_data (set_calc_tas_factor (AIR_DATA_CALC_TAS_FACTOR cfg)) w in
    let w := upd_air_data (set_calc_amsl_baro (AIR_DATA_CALC_AMSL_BARO cfg)) w in
    let w := upd_air_data (set_tas_factor (AIR_DATA_TAS_FACTOR cfg)) w in
    let w := upd_air_data (set_calc_qnh_once true) w in
    let w := upd_air_data (set_amsl_baro_valid false) w in
    let w := set_qnh_set false w in
    let w := set_baro_health_counter 0 w in
    let w := AbiBindMsgBARO_ABS (AIR_DATA_BARO_ABS_ID cfg) pressure_abs_cb_ptr w in
    let w := AbiBindMsgBARO_ABS (AIR_DATA_BARO_DIFF_ID cfg) pressure_diff_cb_ptr w in
    AbiBindMsgTEMPERATURE (AIR_DATA_TEMPERATURE_ID cfg) temperature_cb_ptr w.

Definition air_data_get_amsl (w : World) : float :=
    if amsl_baro_valid (air_data w) then amsl_baro (air_data w)
    else stateGetPositionLla_f_alt w.

Definition air_data_periodic (w : World) : World :=
    if 0 <? baro_health_counter w then
    set_baro_health_counter (uint8_dec (baro_health_counter w)) w
    else
    upd_air_data (set_amsl_baro_valid false) w.

Definition air_data_SetQNH (q : float) (w : World) : World :=
    let w := log_effect (StoreQnh External q) (upd_air_data (set_qnh q) w) in
    set_qnh_set true w.

(** The configuration the [#ifndef] defaults give. *)
Definition default_config : Config :=
    {| AIR_DATA_BARO_ABS_ID := ABI_BROADCAST;
       AIR_DATA_BARO_DIFF_ID := ABI_BROADCAST;
       AIR_DATA_TEMPERATURE_ID := ABI_BROADCAST;
       AIR_DATA_TAS_FACTOR := F32.one;
       AIR_DATA_CALC_AIRSPEED := true;
       AIR_DATA_CALC_TAS_FACTOR := true;
       AIR_DATA_CALC_AMSL_BARO := false |}.

(** Memory at program start: static storage is zero-initialised and
    nothing is bound yet; the vehicle state store is whatever its
    owner made it. *)
Definition boot (st : State) : World :=
    {| air_data := mkAirData F32.zero F32.zero F32.zero F32.zero F32.zero F32.zero F32.zero
                     false false false false false;
       qnh_set := false;
       baro_health_counter := 0;
       abi_queues := [];
       state := st;
       history := [] |}.

(** *** Executions *)

(** What can happen after initialisation: a callback runs, the
    periodic task ticks, the QNH is set from outside, or the owner of
    the vehicle state store publishes a new position. *)
Inductive action : Type :=
  | APressureAbs (sender_id : Z) (p : float)
  | APressureDiff (sender_id : Z) (p : float)
  | ATemperature (sender_id : Z) (t : float)
  | APeriodic
  | ASetQNH (q : float)
  | APosition (valid : bool) (alt : float).

Definition set_position (valid : bool) (alt : float) (w : World) : World :=
    set_state (mkState valid alt (state_airspeed (state w))) w.

Definition step (a : action) (w : World) : World :=
    match a with
    | APressureAbs id p => pressure_abs_cb id p w
    | APressureDiff id p => pressure_diff_cb id p w
    | ATemperature id t => temperature_cb id t w
    | APeriodic => air_data_periodic w
    | ASetQNH q => air_data_SetQNH q w
    | APosition v alt => set_position v alt w
    end.

Definition run (l : list action) (w : World) : World :=
    fold_left (fun w a => step a w) l w.

(** The states an execution goes through, the starting one first. *)
Fixpoint states (l : list action) (w : World) : list World :=
    match l with
    | [] => [w]
    | a :: l' => w :: states l' (step a w)
    end.

Definition reachable (cfg : Config) (st : State) (w : World) : Prop :=
    exists l, w = run l (air_data_init cfg (boot st)).

(** [n] watchdog ticks in a row. *)
Definition ticks (n : nat) (w : World) : World := Nat.iter n air_data_periodic w.

(** Stores to [air_data.qnh] made by the capture branch of
    [pressure_abs_cb]. *)
Definition is_auto_capture (e : effect) : bool :=
  match e with
  | StoreQnh AutoCapture _ => true
  | _ => false
  end.

Definition auto_captures (w : World) : nat :=
  length (filter is_auto_capture (history w)).

(** Number of places where a sequence of flags goes from true to false,
    and from false to true. *)
Fixpoint falls (l : list bool) : nat :=
  match l with
  | a :: t => (if a then match t with b :: _ => if b then 0 else 1 | [] => 0 end else 0)%nat
              + falls t
  | [] => 0%nat
  end.

Fixpoint rises (l : list bool) : nat :=
  match l with
  | a :: t => (if a then 0 else match t with b :: _ => if b then 1 else 0 | [] => 0 end)%nat
              + rises t
  | [] => 0%nat
  end.

Definition calc_qnh_once_trace (l : list action) (w : World) : list bool :=
  map (fun w => calc_qnh_once (air_data w)) (states l w).

Definition amsl_baro_valid_trace (l : list action) (w : World) : list bool :=
  map (fun w => amsl_baro_valid (air_data w)) (states l w).

(** What holds of the watchdog in every state an execution reaches:
    a valid barometric altitude needs a known QNH and the computation
    switched on, and the counter stays within its reset value. *)
Definition baro_inv (w : World) : Prop :=
  (amsl_baro_valid (air_data w) = true ->
   qnh_set w = true /\ calc_amsl_baro (air_data w) = true)
  /\ 0 <= baro_health_counter w <= 10.

(** ** Vocabulary for executions *)

(** Numbers that do not compare below zero: all but the negative finite
    numbers and minus infinity. *)
Definition not_negative (x : spec_float) : bool :=
  match x with
  | S754_finite true _ _ | S754_infinity true => false
  | _ => true
  end.

(** Calls of [stateSetAirspeed_f] recorded in the history. *)
Definition is_set_airspeed (e : effect) : bool :=
  match e with
  | SetAirspeed _ => true
  | _ => false
  end.

Definition airspeed_pushes (w : World) : nat :=
  length (filter is_set_airspeed (history w)).

(** Kinds of actions. *)
Definition is_pressure_abs (a : action) : bool :=
  match a with APressureAbs _ _ => true | _ => false end.
Definition is_pressure_diff (a : action) : bool :=
  match a with APressureDiff _ _ => true | _ => false end.
Definition is_temperature (a : action) : bool :=
  match a with ATemperature _ _ => true | _ => false end.
Definition is_periodic (a : action) : bool :=
  match a with APeriodic => true | _ => false end.
Definition is_set_qnh (a : action) : bool :=
  match a with ASetQNH _ => true | _ => false end.
Definition is_valid_position (a : action) : bool :=
  match a with APosition true _ => true | _ => false end.

(** How many actions of a kind an execution has, and whether it has
    none. *)
Definition count_actions (f : action -> bool) (l : list action) : nat :=
  length (filter f l).

Definition none_of (f : action -> bool) (l : list action) : bool :=
  forallb (fun a => negb (f a)) l.

(** Evaluation of the module's functions that leaves the history as a
    list. *)
Ltac eval_stores :=
  cbv beta iota zeta delta
    [step pressure_abs_cb pressure_diff_cb temperature_cb
     air_data_periodic air_data_SetQNH air_data_init
     set_position stateSetAirspeed_f
     stateIsGlobalCoordinateValid stateGetPositionLla_f_alt
     AbiBindMsgBARO_ABS AbiBindMsgBARO_DIFF AbiBindMsgTEMPERATURE AbiBindMsg
     upd_air_data set_qnh_set set_baro_health_counter set_abi_queues set_state log_effect
     set_pressure set_differential set_temperature set_airspeed set_tas_factor set_qnh
     set_amsl_baro set_amsl_baro_valid set_calc_airspeed set_calc_qnh_once
     set_calc_tas_factor set_calc_amsl_baro
     air_data qnh_set baro_health_counter abi_queues state history
     pressure differential temperature airspeed tas_factor qnh amsl_baro amsl_baro_valid
     calc_airspeed calc_qnh_once calc_tas_factor calc_amsl_baro
     global_coordinate_valid lla_alt state_airspeed andb] in *.

(** ** Proof tactics *)

Ltac destruct_world w :=
  destruct w as [[? ? ? ? ? ? ? ? ? ? ? ?] ? ? ? [? ? ?] ?].

(** Evaluation of the module's functions on a world given by its
    fields; call by value, so that each store is done once. *)
Ltac eval_ops :=
  cbv beta iota zeta delta
    [step run pressure_abs_cb pressure_diff_cb temperature_cb
     air_data_periodic air_data_SetQNH air_data_get_amsl air_data_init boot
     set_position stateSetAirspeed_f
     stateIsGlobalCoordinateValid stateGetPositionLla_f_alt
     AbiBindMsgBARO_ABS AbiBindMsgBARO_DIFF AbiBindMsgTEMPERATURE AbiBindMsg
     upd_air_data set_qnh_set set_baro_health_counter set_abi_queues set_state log_effect
     set_pressure set_differential set_temperature set_airspeed set_tas_factor set_qnh
     set_amsl_baro set_amsl_baro_valid set_calc_airspeed set_calc_qnh_once
     set_calc_tas_factor set_calc_amsl_baro
     air_data qnh_set baro_health_counter abi_queues state history
     pressure differential temperature airspeed tas_factor qnh amsl_baro amsl_baro_valid
     calc_airspeed calc_qnh_once calc_tas_factor calc_amsl_baro
     global_coordinate_valid lla_alt state_airspeed
     auto_captures is_auto_capture filter length baro_inv andb orb negb] in *.

Ltac case_guards :=
  repeat first
    [ match goal with
      | |- context [if ?b then _ else _] => is_var b; destruct b; eval_ops
      | H : context [if ?b then _ else _] |- _ => is_var b; destruct b; eval_ops
      end
    | match goal with
      | |- context [if ?b then _ else _] => destruct b eqn:?; eval_ops
      end ].

Ltac step_cases a w := destruct_world w; destruct a; eval_ops; case_guards.

Ltac split_andb :=
  repeat match goal with
         | H : _ && _ = true |- _ => apply andb_prop in H; destruct H
         | H : _ && _ = false |- _ => apply andb_false_iff in H
         end.

(** Linear arithmetic with quotients and remainders by constants. *)
Ltac pose_div_mod a b :=
  lazymatch goal with
  | _ : a = b * (a / b) + a mod b |- _ => fail
  | _ => pose proof (Z.div_mod a b ltac:(lia));
         pose proof (Z.mod_pos_bound a b ltac:(lia))
  end.

Ltac euclid :=
  repeat match goal with
         | |- context [?a / ?b] => pose_div_mod a b
         | |- context [?a mod ?b] => pose_div_mod a b
         | H : context [?a / ?b] |- _ => pose_div_mod a b
         | H : context [?a mod ?b] |- _ => pose_div_mod a b
         end;
  lia.


(** ** Properties of the state machine *)

#[local] Set Default Proof Using "Type".

Lemma run_cons (a : action) (l : list action) (w : World) :
  run (a :: l) w = run l (step a w).
Proof. reflexivity. Qed.

Lemma run_app (l1 l2 : list action) (w : World) :
  run (l1 ++ l2) w = run l2 (run l1 w).
Proof. unfold run. apply fold_left_app. Qed.

Lemma run_snoc (l : list action) (a : action) (w : World) :
  run (l ++ [a]) w = step a (run l w).
Proof. rewrite run_app. reflexivity. Qed.

(** Induction over executions, last action first. *)
Lemma run_ind (P : World -> Prop) (w0 : World) :
  P w0 ->
  (forall a w, P w -> P (step a w)) ->
  forall l, P (run l w0).
Proof.
  intros H0 Hstep l. induction l as [|a l IH] using rev_ind.
  - exact H0.
  - rewrite run_snoc. apply Hstep, IH.
Qed.

Lemma ticks_S (n : nat) (w : World) :
  ticks (S n) w = air_data_periodic (ticks n w).
Proof. reflexivity. Qed.

Lemma ticks_add (n m : nat) (w : World) :
  ticks (n + m) w = ticks n (ticks m w).
Proof. unfold ticks. apply Nat.iter_add. Qed.

Lemma uint8_dec_small (c : Z) : 0 < c <= 10 -> uint8_dec c = c - 1.
Proof. intros H. unfold uint8_dec. apply Z.mod_small. lia. Qed.

(** *** What each operation does to the fields *)

Lemma init_world (cfg : Config) (st : State) :
  air_data_init cfg (boot st)
  = mkWorld
      (mkAirData F32.zero F32.zero F32.zero F32.zero (AIR_DATA_TAS_FACTOR cfg)
         F32.zero F32.zero false (AIR_DATA_CALC_AIRSPEED cfg) true
         (AIR_DATA_CALC_TAS_FACTOR cfg) (AIR_DATA_CALC_AMSL_BARO cfg))
      false 0
      [ mkEvent ABI_TEMPERATURE (AIR_DATA_TEMPERATURE_ID cfg) temperature_cb_ptr;
        mkEvent ABI_BARO_ABS (AIR_DATA_BARO_DIFF_ID cfg) pressure_diff_cb_ptr;
        mkEvent ABI_BARO_ABS (AIR_DATA_BARO_ABS_ID cfg) pressure_abs_cb_ptr ]
      st [].
Proof. reflexivity. Qed.

Lemma pressure_abs_cb_fields (sender_id : Z) (p : float) (w : World) :
  let capture := calc_qnh_once (air_data w) && stateIsGlobalCoordinateValid w in
  let v := F32.div (pprz_isa_ref_pressure_of_height_full p (stateGetPositionLla_f_alt w))
                   F32.hundred in
  let w' := pressure_abs_cb sender_id p w in
  calc_qnh_once (air_data w') = (if capture then false else calc_qnh_once (air_data w))
  /\ qnh (air_data w') = (if capture then v else qnh (air_data w))
  /\ qnh_set w' = (if capture then true else qnh_set w)
  /\ history w' = (if capture then StoreQnh AutoCapture v :: history w else history w)
  /\ baro_health_counter w' = 10
  /\ calc_amsl_baro (air_data w') = calc_amsl_baro (air_data w)
  /\ amsl_baro_valid (air_data w')
     = (if calc_amsl_baro (air_data w) && qnh_set w' then true
        else amsl_baro_valid (air_data w))
  /\ state w' = state w.
Proof.
  destruct_world w. eval_ops. case_guards; repeat split.
Qed.

Lemma air_data_periodic_fields (w : World) :
  let w' := air_data_periodic w in
  baro_health_counter w'
  = (if 0 <? baro_health_counter w then uint8_dec (baro_health_counter w)
     else baro_health_counter w)
  /\ amsl_baro_valid (air_data w')
     = (if 0 <? baro_health_counter w then amsl_baro_valid (air_data w) else false)
  /\ qnh_set w' = qnh_set w
  /\ calc_amsl_baro (air_data w') = calc_amsl_baro (air_data w).
Proof.
  destruct_world w. eval_ops. case_guards; repeat split.
Qed.

(** *** The watchdog invariant *)

Lemma baro_inv_init (cfg : Config) (st : State) :
  baro_inv (air_data_init cfg (boot st)).
Proof. rewrite init_world. eval_ops. split; [discriminate | lia]. Qed.

Lemma baro_inv_step (a : action) (w : World) :
  baro_inv w -> baro_inv (step a w).
Proof.
  intros H. step_cases a w; destruct H as [Hv Hc];
    repeat match goal with H : (0 <? _) = true |- _ => apply Z.ltb_lt in H end;
    try rewrite uint8_dec_small by lia;
    (split; [intros Hx; try discriminate Hx; try (split; reflexivity);
             try (destruct (Hv Hx); split; congruence); auto
            | lia]).
Qed.

Lemma baro_inv_reachable (cfg : Config) (st : State) (w : World) :
  reachable cfg st w -> baro_inv w.
Proof.
  intros [l ->]. apply run_ind.
  - apply baro_inv_init.
  - intros a w. apply baro_inv_step.
Qed.

(** *** Specified properties *)

(** C1 (evaluation of the code): [air_data_init] binds three events, but
    [pressure_diff_cb] is bound with [AbiBindMsgBARO_ABS]: it hangs on the
    queue of absolute-pressure messages.  A differential-pressure message
    reaches no callback of the module, and an absolute-pressure message
    reaches [pressure_diff_cb] whenever its sender passes the filter. *)
Theorem air_data_init_binds_diff_cb_to_BARO_ABS (cfg : Config) (st : State) (sender_id : Z) :
  let w := air_data_init cfg (boot st) in
  abi_queues w =
    [ mkEvent ABI_TEMPERATURE (AIR_DATA_TEMPERATURE_ID cfg) temperature_cb_ptr;
      mkEvent ABI_BARO_ABS (AIR_DATA_BARO_DIFF_ID cfg) pressure_diff_cb_ptr;
      mkEvent ABI_BARO_ABS (AIR_DATA_BARO_ABS_ID cfg) pressure_abs_cb_ptr ]
  /\ abi_receivers ABI_BARO_DIFF sender_id w = []
  /\ (forall v, AbiSendMsg ABI_BARO_DIFF sender_id v w = w)
  /\ (In pressure_diff_cb_ptr (abi_receivers ABI_BARO_ABS sender_id w) <->
      AIR_DATA_BARO_DIFF_ID cfg = ABI_BROADCAST \/ AIR_DATA_BARO_DIFF_ID cfg = sender_id).
Proof.
  cbv zeta. rewrite init_world.
  assert (Hnil : forall w', abi_queues w' = abi_queues (air_data_init cfg (boot st)) ->
                            abi_receivers ABI_BARO_DIFF sender_id w' = []).
  { intros w' E. unfold abi_receivers. rewrite E, init_world. reflexivity. }
  split; [reflexivity|]. split; [apply Hnil; rewrite init_world; reflexivity|]. split.
  - intros v. unfold AbiSendMsg. rewrite Hnil by (rewrite init_world; reflexivity).
    reflexivity.
  - unfold abi_receivers, abi_matches.
    cbv beta iota delta [abi_queues filter map ev_msg ev_id ev_cb abi_msg_eqb andb].
    destruct ((AIR_DATA_TEMPERATURE_ID cfg =? ABI_BROADCAST)
              || (AIR_DATA_TEMPERATURE_ID cfg =? sender_id));
      destruct ((AIR_DATA_BARO_ABS_ID cfg =? ABI_BROADCAST)
                || (AIR_DATA_BARO_ABS_ID cfg =? sender_id));
      destruct (Z.eqb_spec (AIR_DATA_BARO_DIFF_ID cfg) ABI_BROADCAST) as [E1|E1];
      destruct (Z.eqb_spec (AIR_DATA_BARO_DIFF_ID cfg) sender_id) as [E2|E2];
      cbv beta iota delta [orb In]; intuition discriminate.
Qed.

(** C2, amended: in every state reachable from initialisation, if
    [amsl_baro_valid] is true then QNH has been set and the watchdog
    counter is between 0 and 10; it can be 0, and then the next tick
    clears [amsl_baro_valid]. *)
Theorem amsl_baro_valid_implies_qnh_set (cfg : Config) (st : State) (w : World) :
  reachable cfg st w ->
  amsl_baro_valid (air_data w) = true ->
  qnh_set w = true
  /\ 0 <= baro_health_counter w <= 10
  /\ (baro_health_counter w = 0 ->
      amsl_baro_valid (air_data (air_data_periodic w)) = false).
Proof.
  intros Hr Hv. destruct (baro_inv_reachable cfg st w Hr) as [Hq Hc].
  destruct (Hq Hv) as [Hs _]. repeat split; try assumption; try lia.
  intros H0. destruct (air_data_periodic_fields w) as (_ & Hval & _).
  rewrite Hval, H0. reflexivity.
Qed.

Lemma ticks_counter (n : nat) (w : World) :
  (Z.of_nat n <= baro_health_counter w <= 10) ->
  baro_health_counter (ticks n w) = baro_health_counter w - Z.of_nat n
  /\ amsl_baro_valid (air_data (ticks n w)) = amsl_baro_valid (air_data w).
Proof.
  induction n as [|n IH]; intros H.
  - split; [cbn; lia | reflexivity].
  - rewrite ticks_S. destruct IH as [IHc IHa]; [lia|].
    destruct (air_data_periodic_fields (ticks n w)) as (Hc & Hv & _).
    rewrite Hc, Hv.
    destruct (Z.ltb_spec 0 (baro_health_counter (ticks n w))) as [Hlt|Hge]; [|lia].
    rewrite uint8_dec_small by lia. split; [lia | assumption].
Qed.

Lemma ticks_frame (n : nat) (w : World) :
  qnh_set (ticks n w) = qnh_set w
  /\ calc_amsl_baro (air_data (ticks n w)) = calc_amsl_baro (air_data w).
Proof.
  induction n as [|n [IH1 IH2]]; [split; reflexivity|].
  rewrite ticks_S.
  destruct (air_data_periodic_fields (ticks n w)) as (_ & _ & Hq & Hb).
  rewrite Hq, Hb. split; assumption.
Qed.

Lemma ticks_zero_counter (n : nat) (w : World) :
  baro_health_counter w = 0 -> baro_health_counter (ticks n w) = 0.
Proof.
  intros H0. induction n as [|n IH]; [assumption|].
  rewrite ticks_S.
  destruct (air_data_periodic_fields (ticks n w)) as (Hc & _).
  rewrite Hc, IH. reflexivity.
Qed.

Lemma ticks_zero_invalid (n : nat) (w : World) :
  baro_health_counter w = 0 ->
  amsl_baro_valid (air_data (ticks (S n) w)) = false.
Proof.
  intros H0. rewrite ticks_S.
  destruct (air_data_periodic_fields (ticks n w)) as (_ & Hv & _).
  rewrite Hv, (ticks_zero_counter n w H0). reflexivity.
Qed.

Lemma falls_cons (a b : bool) (t : list bool) :
  falls (a :: b :: t) = ((if a then if b then 0 else 1 else 0) + falls (b :: t))%nat.
Proof. reflexivity. Qed.

Lemma rises_cons (a b : bool) (t : list bool) :
  rises (a :: b :: t) = ((if a then 0 else if b then 1 else 0) + rises (b :: t))%nat.
Proof. reflexivity. Qed.

Lemma amsl_baro_valid_trace_cons (a : action) (l : list action) (w : World) :
  amsl_baro_valid_trace (a :: l) w
  = amsl_baro_valid (air_data w) :: amsl_baro_valid_trace l (step a w).
Proof. reflexivity. Qed.

Lemma amsl_baro_valid_trace_head (l : list action) (w : World) :
  exists t, amsl_baro_valid_trace l w = amsl_baro_valid (air_data w) :: t.
Proof. destruct l; eexists; reflexivity. Qed.

(** Ticks alone never make the altitude valid again. *)
Lemma ticks_trace_invalid (n : nat) (w : World) :
  amsl_baro_valid (air_data w) = false ->
  falls (amsl_baro_valid_trace (repeat APeriodic n) w) = 0%nat
  /\ rises (amsl_baro_valid_trace (repeat APeriodic n) w) = 0%nat.
Proof.
  revert w. induction n as [|n IH]; intros w Hf.
  - unfold amsl_baro_valid_trace, states, map, repeat. rewrite Hf. split; reflexivity.
  - cbn [repeat]. rewrite amsl_baro_valid_trace_cons. cbn [step].
    destruct (air_data_periodic_fields w) as (_ & Hv & _).
    assert (Hf' : amsl_baro_valid (air_data (air_data_periodic w)) = false).
    { rewrite Hv, Hf. destruct (0 <? baro_health_counter w); reflexivity. }
    destruct (IH _ Hf') as [IH1 IH2].
    destruct (amsl_baro_valid_trace_head (repeat APeriodic n) (air_data_periodic w))
      as [t Ht].
    rewrite Ht in *. rewrite falls_cons, rises_cons, IH1, IH2, Hf, Hf'.
    split; reflexivity.
Qed.

(** From a valid state with [c] ticks left, the flag falls once if more
    than [c] ticks follow, and not at all otherwise. *)
Lemma ticks_trace_valid (n : nat) (w : World) :
  amsl_baro_valid (air_data w) = true ->
  0 <= baro_health_counter w <= 10 ->
  falls (amsl_baro_valid_trace (repeat APeriodic n) w)
  = (if Z.of_nat n <=? baro_health_counter w then 0%nat else 1%nat)
  /\ rises (amsl_baro_valid_trace (repeat APeriodic n) w) = 0%nat.
Proof.
  revert w. induction n as [|n IH]; intros w Hv Hc.
  - unfold amsl_baro_valid_trace, states, map, repeat. rewrite Hv.
    destruct (Z.leb_spec (Z.of_nat 0) (baro_health_counter w)); [|lia].
    split; reflexivity.
  - cbn [repeat]. rewrite amsl_baro_valid_trace_cons. cbn [step].
    destruct (air_data_periodic_fields w) as (Hcnt & Hval & _).
    destruct (amsl_baro_valid_trace_head (repeat APeriodic n) (air_data_periodic w))
      as [t Ht].
    destruct (Z.ltb_spec 0 (baro_health_counter w)) as [Hpos|Hzero].
    + rewrite uint8_dec_small in Hcnt by lia.
      destruct (IH (air_data_periodic w)) as [IH1 IH2]; [congruence | lia |].
      rewrite Ht in *. rewrite falls_cons, rises_cons, IH1, IH2, Hv, Hval, Hv, Hcnt.
      split; [|reflexivity].
      destruct (Z.leb_spec (Z.of_nat n) (baro_health_counter w - 1));
        destruct (Z.leb_spec (Z.of_nat (S n)) (baro_health_counter w));
        try reflexivity; lia.
    + destruct (ticks_trace_invalid n (air_data_periodic w) Hval) as [IH1 IH2].
      rewrite Ht in *. rewrite falls_cons, rises_cons, IH1, IH2, Hv, Hval.
      split; [|reflexivity].
      destruct (Z.leb_spec (Z.of_nat (S n)) (baro_health_counter w)); [lia | reflexivity].
Qed.

(** C3, amended: from a state where [amsl_baro_valid] is true and the
    counter holds its healthy value 10, [amsl_baro_valid] is still true
    after each of the first 10 ticks and false after the 11th and every
    later one; over 11 ticks or more the flag goes from true to false
    exactly once and never back; and an absolute-pressure sample after
    any number of ticks resets the counter to 10 and, if QNH is known and
    the AMSL computation is enabled, leaves [amsl_baro_valid] true. *)
Theorem watchdog_expires_after_eleven_ticks (w : World) :
  amsl_baro_valid (air_data w) = true ->
  baro_health_counter w = 10 ->
  (forall k, (k <= 10)%nat -> amsl_baro_valid (air_data (ticks k w)) = true)
  /\ (forall k, (11 <= k)%nat -> amsl_baro_valid (air_data (ticks k w)) = false)
  /\ (forall n, (n <= 10)%nat ->
        falls (amsl_baro_valid_trace (repeat APeriodic n) w) = 0%nat)
  /\ (forall n, (11 <= n)%nat ->
        falls (amsl_baro_valid_trace (repeat APeriodic n) w) = 1%nat)
  /\ (forall n, rises (amsl_baro_valid_trace (repeat APeriodic n) w) = 0%nat)
  /\ (forall k sender_id p,
        let w' := pressure_abs_cb sender_id p (ticks k w) in
        baro_health_counter w' = 10
        /\ (qnh_set w = true -> calc_amsl_baro (air_data w) = true ->
            amsl_baro_valid (air_data w') = true)).
Proof.
  intros Hv Hc. split; [|split; [|split; [|split; [|split]]]].
  - intros k Hk. destruct (ticks_counter k w) as [_ Ha]; [lia|].
    rewrite Ha. exact Hv.
  - intros k Hk. replace k with (S (k - 11) + 10)%nat by lia.
    rewrite ticks_add. apply ticks_zero_invalid.
    destruct (ticks_counter 10 w) as [Hc' _]; lia.
  - intros n Hn. destruct (ticks_trace_valid n w Hv ltac:(lia)) as [Hf _].
    rewrite Hf, Hc. destruct (Z.leb_spec (Z.of_nat n) 10); [reflexivity | lia].
  - intros n Hn. destruct (ticks_trace_valid n w Hv ltac:(lia)) as [Hf _].
    rewrite Hf, Hc. destruct (Z.leb_spec (Z.of_nat n) 10); [lia | reflexivity].
  - intros n. destruct (ticks_trace_valid n w Hv ltac:(lia)) as [_ Hr]. exact Hr.
  - intros k sender_id p. cbv zeta.
    destruct (ticks_frame k w) as [Hq Hb].
    destruct (pressure_abs_cb_fields sender_id p (ticks k w))
      as (_ & _ & Hqs & _ & Hcnt & _ & Hval & _).
    split; [exact Hcnt|].
    intros Hqs0 Hcb. rewrite Hval, Hqs, Hb, Hcb, Hq, Hqs0.
    destruct (calc_qnh_once (air_data (ticks k w)) && _); reflexivity.
Qed.

(** *** The QNH capture latch *)

Lemma calc_qnh_once_stays_false (a : action) (w : World) :
  calc_qnh_once (air_data w) = false ->
  calc_qnh_once (air_data (step a w)) = false.
Proof. intros H. step_cases a w; congruence. Qed.

Lemma calc_qnh_once_fall_cause (a : action) (w : World) :
  calc_qnh_once (air_data w) = true ->
  calc_qnh_once (air_data (step a w)) = false ->
  exists sender_id p,
    a = APressureAbs sender_id p /\ stateIsGlobalCoordinateValid w = true.
Proof.
  intros Ht Hf. destruct_world w.
  destruct a as [id p| | | | |]; eval_ops; subst; revert Hf; case_guards;
    intros Hf; try congruence.
  all: exists id, p; split; reflexivity.
Qed.

Lemma calc_qnh_once_trace_cons (a : action) (l : list action) (w : World) :
  calc_qnh_once_trace (a :: l) w
  = calc_qnh_once (air_data w) :: calc_qnh_once_trace l (step a w).
Proof. reflexivity. Qed.

Lemma calc_qnh_once_trace_head (l : list action) (w : World) :
  exists t, calc_qnh_once_trace l w = calc_qnh_once (air_data w) :: t.
Proof. destruct l; eexists; reflexivity. Qed.

Lemma calc_qnh_once_trace_false (l : list action) (w : World) :
  calc_qnh_once (air_data w) = false ->
  falls (calc_qnh_once_trace l w) = 0%nat /\ rises (calc_qnh_once_trace l w) = 0%nat.
Proof.
  revert w. induction l as [|a l IH]; intros w Hf.
  - unfold calc_qnh_once_trace, states, map. rewrite Hf. split; reflexivity.
  - rewrite calc_qnh_once_trace_cons.
    pose proof (calc_qnh_once_stays_false a w Hf) as Hf'.
    destruct (IH _ Hf') as [IH1 IH2].
    destruct (calc_qnh_once_trace_head l (step a w)) as [t Ht].
    rewrite Ht in *. rewrite falls_cons, rises_cons, IH1, IH2, Hf, Hf'.
    split; reflexivity.
Qed.

Lemma calc_qnh_once_trace_monotone (l : list action) (w : World) :
  (falls (calc_qnh_once_trace l w) <= 1)%nat /\ rises (calc_qnh_once_trace l w) = 0%nat.
Proof.
  revert w. induction l as [|a l IH]; intros w.
  - unfold calc_qnh_once_trace, states, map.
    destruct (calc_qnh_once (air_data w)); split; auto.
  - rewrite calc_qnh_once_trace_cons.
    destruct (calc_qnh_once_trace_head l (step a w)) as [t Ht].
    destruct (calc_qnh_once (air_data w)) eqn:Hw.
    + destruct (calc_qnh_once (air_data (step a w))) eqn:Hw'.
      * destruct (IH (step a w)) as [IH1 IH2].
        rewrite Ht in *. rewrite falls_cons, rises_cons, IH2.
        split; [exact IH1 | reflexivity].
      * destruct (calc_qnh_once_trace_false l _ Hw') as [IH1 IH2].
        rewrite Ht in *. rewrite falls_cons, rises_cons, IH1, IH2.
        split; [apply Nat.le_refl | reflexivity].
    + pose proof (calc_qnh_once_stays_false a w Hw) as Hw'.
      destruct (calc_qnh_once_trace_false l _ Hw') as [IH1 IH2].
      rewrite Ht in *. rewrite falls_cons, rises_cons, IH1, IH2, Hw'.
      split; [apply Nat.le_0_l | reflexivity].
Qed.

Lemma capture_inv_step (a : action) (w : World) :
  (auto_captures w <= if calc_qnh_once (air_data w) then 0 else 1)%nat ->
  (auto_captures (step a w) <= if calc_qnh_once (air_data (step a w)) then 0 else 1)%nat.
Proof.
  intros H. step_cases a w; try assumption; try lia.
Qed.

Lemma capture_inv_reachable (cfg : Config) (st : State) (l : list action) :
  let w := run l (air_data_init cfg (boot st)) in
  (auto_captures w <= if calc_qnh_once (air_data w) then 0 else 1)%nat.
Proof.
  cbv zeta. apply run_ind.
  - rewrite init_world. apply Nat.le_refl.
  - apply capture_inv_step.
Qed.

(** Once the latch is down, absolute-pressure samples leave [qnh] and
    the number of captures alone. *)
Lemma abs_samples_after_capture (samples : list (Z * float)) (w : World) :
  calc_qnh_once (air_data w) = false ->
  let w' := run (map (fun s => APressureAbs (fst s) (snd s)) samples) w in
  calc_qnh_once (air_data w') = false
  /\ qnh (air_data w') = qnh (air_data w)
  /\ auto_captures w' = auto_captures w.
Proof.
  cbv zeta. revert w. induction samples as [|[id p] samples IH]; intros w Hf.
  - repeat split; assumption.
  - rewrite map_cons, run_cons.
    destruct (pressure_abs_cb_fields id p w) as (H1 & H2 & _ & H4 & _).
    rewrite Hf in H1, H2, H4. cbn [andb] in H1, H2, H4.
    destruct (IH (pressure_abs_cb id p w) H1) as (I1 & I2 & I3).
    cbn [step fst snd].
    split; [exact I1|]. split; [congruence|].
    rewrite I3. unfold auto_captures. rewrite H4. reflexivity.
Qed.

(** C4: along every execution [calc_qnh_once] never goes from false to
    true and goes from true to false at most once, and only in an
    absolute-pressure callback that finds the global position valid; the
    capture branch stores [qnh] at most once in any execution; and N >= 2
    absolute-pressure samples fed after initialisation while the position
    fix is valid store [qnh] through that branch exactly once, with the
    value captured from the first sample. *)
Theorem qnh_auto_capture_fires_once
  (cfg : Config) (st : State) (l : list action)
  (id1 : Z) (p1 : float) (samples : list (Z * float)) :
  global_coordinate_valid st = true ->
  (1 <= length samples)%nat ->
  let w0 := air_data_init cfg (boot st) in
  let feed := map (fun s => APressureAbs (fst s) (snd s)) ((id1, p1) :: samples) in
  rises (calc_qnh_once_trace l w0) = 0%nat
  /\ (falls (calc_qnh_once_trace l w0) <= 1)%nat
  /\ (forall a w,
        calc_qnh_once (air_data w) = true ->
        calc_qnh_once (air_data (step a w)) = false ->
        exists sender_id p,
          a = APressureAbs sender_id p /\ stateIsGlobalCoordinateValid w = true)
  /\ (auto_captures (run l w0) <= 1)%nat
  /\ auto_captures (run feed w0) = 1%nat
  /\ calc_qnh_once (air_data (run feed w0)) = false
  /\ qnh (air_data (run feed w0))
     = F32.div (pprz_isa_ref_pressure_of_height_full p1 (lla_alt st)) F32.hundred
  /\ qnh (air_data (run feed w0))
     = qnh (air_data (pressure_abs_cb id1 p1 w0)).
Proof.
  intros Hvalid Hlen w0 feed.
  destruct (calc_qnh_once_trace_monotone l w0) as [Hfalls Hrises].
  split; [exact Hrises|]. split; [exact Hfalls|].
  split; [exact calc_qnh_once_fall_cause|].
  split.
  { pose proof (capture_inv_reachable cfg st l) as H. cbv zeta in H.
    fold w0 in H. destruct (calc_qnh_once (air_data (run l w0))); lia. }
  subst feed. rewrite map_cons, run_cons. cbn [step fst snd].
  destruct (pressure_abs_cb_fields id1 p1 w0) as (H1 & H2 & _ & H4 & _).
  assert (Hcap : calc_qnh_once (air_data w0) && stateIsGlobalCoordinateValid w0 = true).
  { subst w0. rewrite init_world. exact Hvalid. }
  assert (Halt : stateGetPositionLla_f_alt w0 = lla_alt st).
  { subst w0. rewrite init_world. reflexivity. }
  assert (Hh0 : history w0 = []).
  { subst w0. rewrite init_world. reflexivity. }
  rewrite Hcap in H1, H2, H4. rewrite Halt in H2. rewrite Hh0 in H4.
  destruct (abs_samples_after_capture samples _ H1) as (I1 & I2 & I3).
  cbv zeta in I1, I2, I3.
  split; [rewrite I3; unfold auto_captures; rewrite H4; reflexivity|].
  split; [exact I1|]. split; [congruence | exact I2].
Qed.

(** C5: [air_data_SetQNH] stores the given value in [qnh], marks QNH as
    set and leaves [calc_qnh_once] as it was; if, after any further
    actions, [calc_qnh_once] is still true when an absolute-pressure
    sample arrives while the global position is valid, the capture branch
    replaces [qnh] with the value computed from that sample. *)
Theorem SetQNH_does_not_disarm_auto_capture
  (q : float) (w : World) (l : list action) (sender_id : Z) (p : float) :
  let w1 := air_data_SetQNH q w in
  let w2 := run l w1 in
  let w3 := pressure_abs_cb sender_id p w2 in
  calc_qnh_once (air_data w2) = true ->
  stateIsGlobalCoordinateValid w2 = true ->
  qnh (air_data w1) = q
  /\ qnh_set w1 = true
  /\ calc_qnh_once (air_data w1) = calc_qnh_once (air_data w)
  /\ qnh (air_data w3)
     = F32.div (pprz_isa_ref_pressure_of_height_full p (stateGetPositionLla_f_alt w2))
               F32.hundred
  /\ history w3
     = StoreQnh AutoCapture
         (F32.div (pprz_isa_ref_pressure_of_height_full p (stateGetPositionLla_f_alt w2))
                  F32.hundred) :: history w2
  /\ calc_qnh_once (air_data w3) = false.
Proof.
  intros w1 w2 w3 Hc Hv.
  split; [reflexivity|]. split; [reflexivity|]. split; [reflexivity|].
  destruct (pressure_abs_cb_fields sender_id p w2) as (H1 & H2 & _ & H4 & _).
  rewrite Hc, Hv in H1, H2, H4. cbn [andb] in H1, H2, H4.
  fold w3 in H1, H2, H4. auto.
Qed.

(** C6: [air_data_get_amsl] returns [amsl_baro] when [amsl_baro_valid]
    is true and otherwise the altitude of the vehicle state store; right
    after initialisation [amsl_baro_valid] is false and the accessor
    returns the altitude of the store. *)
Theorem air_data_get_amsl_fallback (cfg : Config) (st : State) (w : World) :
  air_data_get_amsl w
  = (if amsl_baro_valid (air_data w) then amsl_baro (air_data w) else lla_alt (state w))
  /\ amsl_baro_valid (air_data (air_data_init cfg (boot st))) = false
  /\ air_data_get_amsl (air_data_init cfg (boot st)) = lla_alt st.
Proof. rewrite init_world. repeat split. Qed.

(** C7: one watchdog tick changes nothing but the watchdog counter and
    [amsl_baro_valid]. *)
Theorem air_data_periodic_frame (w : World) :
  let w' := air_data_periodic w in
  airspeed (air_data w') = airspeed (air_data w)
  /\ tas_factor (air_data w') = tas_factor (air_data w)
  /\ pressure (air_data w') = pressure (air_data w)
  /\ differential (air_data w') = differential (air_data w)
  /\ temperature (air_data w') = temperature (air_data w)
  /\ qnh (air_data w') = qnh (air_data w)
  /\ amsl_baro (air_data w') = amsl_baro (air_data w)
  /\ calc_airspeed (air_data w') = calc_airspeed (air_data w)
  /\ calc_qnh_once (air_data w') = calc_qnh_once (air_data w)
  /\ calc_tas_factor (air_data w') = calc_tas_factor (air_data w)
  /\ calc_amsl_baro (air_data w') = calc_amsl_baro (air_data w)
  /\ qnh_set w' = qnh_set w
  /\ abi_queues w' = abi_queues w
  /\ state w' = state w
  /\ history w' = history w.
Proof.
  destruct_world w. eval_ops. case_guards; repeat split.
Qed.

(** C9: true airspeed from dynamic pressure is the TAS factor held in
    the state times the equivalent airspeed of that pressure; this is
    the airspeed the differential-pressure callback stores when the
    airspeed computation is enabled. *)
Theorem tas_from_dynamic_pressure_is_factor_times_eas
  (w : World) (q : float) (sender_id : Z) :
  tas_from_dynamic_pressure w q
  = F32.mul (tas_factor (air_data w)) (eas_from_dynamic_pressure q)
  /\ tas_from_dynamic_pressure w q = tas_from_eas w (eas_from_dynamic_pressure q)
  /\ airspeed (air_data (pressure_diff_cb sender_id q w))
     = (if calc_airspeed (air_data w)
        then F32.mul (tas_factor (air_data w)) (eas_from_dynamic_pressure q)
        else airspeed (air_data w)).
Proof.
  split; [reflexivity|]. split; [reflexivity|].
  destruct_world w. unfold tas_from_dynamic_pressure, tas_from_eas.
  eval_ops. case_guards; reflexivity.
Qed.

Lemma calc_amsl_baro_off_step (a : action) (w : World) :
  calc_amsl_baro (air_data w) = false /\ amsl_baro_valid (air_data w) = false ->
  calc_amsl_baro (air_data (step a w)) = false
  /\ amsl_baro_valid (air_data (step a w)) = false.
Proof.
  intros [Hc Hv]. step_cases a w; split; congruence.
Qed.

(** C10: with [AIR_DATA_CALC_AMSL_BARO] false, as it is by default,
    [amsl_baro_valid] is false in every state reached from
    initialisation, and [air_data_get_amsl] returns the altitude of the
    vehicle state store. *)
Theorem amsl_baro_never_valid_when_disabled (cfg : Config) (st : State) (l : list action) :
  AIR_DATA_CALC_AMSL_BARO cfg = false ->
  let w := run l (air_data_init cfg (boot st)) in
  AIR_DATA_CALC_AMSL_BARO default_config = false
  /\ amsl_baro_valid (air_data w) = false
  /\ air_data_get_amsl w = lla_alt (state w).
Proof.
  intros Hoff w. split; [reflexivity|].
  assert (H : calc_amsl_baro (air_data w) = false /\ amsl_baro_valid (air_data w) = false).
  { subst w. apply run_ind.
    - rewrite init_world. split; [exact Hoff | reflexivity].
    - apply calc_amsl_baro_off_step. }
  destruct H as [_ Hv]. split; [exact Hv|].
  unfold air_data_get_amsl. rewrite Hv. reflexivity.
Qed.

(** ** Binary32 rounding *)

(** *** Number of digits *)

Lemma digits2_pos_size (p : positive) : digits2_pos p = Pos.size p.
Proof. induction p as [p IH|p IH|]; cbn; try rewrite IH; reflexivity. Qed.

Lemma Zdigits2_bounds (m : Z) :
  0 < m -> 2 ^ (Zdigits2 m - 1) <= m < 2 ^ Zdigits2 m.
Proof.
  destruct m as [|p|p]; try lia. intros _.
  unfold Zdigits2. rewrite digits2_pos_size.
  pose proof (Pos.size_gt p) as Hgt. pose proof (Pos.size_le p) as Hle.
  assert (E : Z.pos (2 ^ Pos.size p) = 2 ^ Z.pos (Pos.size p)) by apply Pos2Z.inj_pow.
  assert (H : 2 ^ Z.pos (Pos.size p) = 2 * 2 ^ (Z.pos (Pos.size p) - 1)).
  { rewrite <- Z.pow_succ_r by lia. f_equal. lia. }
  lia.
Qed.

Lemma Zdigits2_nonneg (m : Z) : 0 <= Zdigits2 m.
Proof. destruct m; cbn; lia. Qed.

Lemma Zdigits2_pos (m : Z) : 0 < m -> 0 < Zdigits2 m.
Proof. destruct m; cbn; lia. Qed.

(** The number of digits is the only [d] with [2^(d-1) <= m < 2^d]. *)
Lemma Zdigits2_unique (m d : Z) :
  0 < d -> 2 ^ (d - 1) <= m < 2 ^ d -> Zdigits2 m = d.
Proof.
  intros Hd [Hlo Hhi].
  assert (Hm : 0 < m) by (pose proof (Z.pow_pos_nonneg 2 (d - 1)); lia).
  destruct (Zdigits2_bounds m Hm) as [Hlo' Hhi'].
  pose proof (Zdigits2_pos m Hm) as Hd'.
  destruct (Z.lt_trichotomy (Zdigits2 m) d) as [Hlt|[Heq|Hgt]]; [|exact Heq|].
  - assert (2 ^ Zdigits2 m <= 2 ^ (d - 1)) by (apply Z.pow_le_mono_r; lia). lia.
  - assert (2 ^ d <= 2 ^ (Zdigits2 m - 1)) by (apply Z.pow_le_mono_r; lia). lia.
Qed.

Lemma Zdigits2_le (m1 m2 : Z) : 0 <= m1 <= m2 -> Zdigits2 m1 <= Zdigits2 m2.
Proof.
  intros [H0 Hle].
  destruct (Z.eq_dec m1 0) as [->|Hn]; [apply Zdigits2_nonneg|].
  destruct (Zdigits2_bounds m1) as [Hlo1 _]; [lia|].
  destruct (Zdigits2_bounds m2) as [_ Hhi2]; [lia|].
  destruct (Z.le_gt_cases (Zdigits2 m1) (Zdigits2 m2)) as [H|H]; [exact H|].
  assert (2 ^ Zdigits2 m2 <= 2 ^ (Zdigits2 m1 - 1)).
  { apply Z.pow_le_mono_r; [lia|]. lia. }
  lia.
Qed.

(** Doubling, with or without a low bit, adds one digit. *)
Lemma Zdigits2_double (m b : Z) :
  0 < m -> 0 <= b <= 1 -> Zdigits2 (2 * m + b) = Zdigits2 m + 1.
Proof.
  intros Hm Hb. destruct (Zdigits2_bounds m Hm) as [Hlo Hhi].
  pose proof (Zdigits2_pos m Hm) as Hd.
  apply Zdigits2_unique; [lia|].
  replace (Zdigits2 m + 1 - 1) with (Zdigits2 m - 1 + 1) by lia.
  rewrite !Z.pow_add_r by lia. lia.
Qed.

(** *** The sticky shift and the rounding of keys *)

Lemma sticky_half_nonneg (k : Z) : 0 <= k -> 0 <= sticky_half k.
Proof. intros H. unfold sticky_half. destruct (k mod 4 =? 1); euclid. Qed.

Lemma sticky_half_mono (k1 k2 : Z) :
  k1 <= k2 -> sticky_half k1 <= sticky_half k2.
Proof.
  intros H. unfold sticky_half.
  destruct (Z.eqb_spec (k1 mod 4) 1); destruct (Z.eqb_spec (k2 mod 4) 1); euclid.
Qed.

Lemma sticky_half_div4 (k : Z) : sticky_half k / 4 = k / 4 / 2.
Proof.
  unfold sticky_half. destruct (Z.eqb_spec (k mod 4) 1); euclid.
Qed.

Lemma sticky_half_double (k : Z) : sticky_half (2 * k) = k.
Proof.
  unfold sticky_half. destruct (Z.eqb_spec ((2 * k) mod 4) 1); euclid.
Qed.

Lemma sticky_shift_S (n : nat) (k : Z) :
  sticky_shift (S n) k = sticky_shift n (sticky_half k).
Proof. unfold sticky_shift. apply Nat.iter_succ_r. Qed.

Lemma sticky_shift_nonneg (n : nat) (k : Z) : 0 <= k -> 0 <= sticky_shift n k.
Proof.
  intros H. induction n as [|n IH]; [exact H|].
  cbn. apply sticky_half_nonneg, IH.
Qed.

Lemma sticky_shift_mono (n : nat) (k1 k2 : Z) :
  k1 <= k2 -> sticky_shift n k1 <= sticky_shift n k2.
Proof.
  intros H. induction n as [|n IH]; [exact H|].
  cbn. apply sticky_half_mono, IH.
Qed.

Lemma sticky_shift_div4 (n : nat) (k : Z) :
  sticky_shift n k / 4 = k / 4 / 2 ^ Z.of_nat n.
Proof.
  induction n as [|n IH].
  - cbn. rewrite Z.div_1_r. reflexivity.
  - change (sticky_shift (S n) k) with (sticky_half (sticky_shift n k)).
    rewrite sticky_half_div4, IH, Nat2Z.inj_succ, Z.pow_succ_r by lia.
    rewrite Z.div_div by lia. f_equal. lia.
Qed.

Lemma rne_key_bounds (k : Z) : k / 4 <= rne_key k <= k / 4 + 1.
Proof. unfold rne_key. destruct (_ || _); lia. Qed.

Lemma rne_key_mono (k1 k2 : Z) : k1 <= k2 -> rne_key k1 <= rne_key k2.
Proof.
  intros H. unfold rne_key.
  destruct (Z.eq_dec (k1 / 4) (k2 / 4)) as [E|NE].
  - rewrite E.
    destruct (Z.eqb_spec (k1 mod 4) 3); destruct (Z.eqb_spec (k1 mod 4) 2);
      destruct (Z.eqb_spec (k2 mod 4) 3); destruct (Z.eqb_spec (k2 mod 4) 2);
      destruct (Z.odd (k2 / 4)); cbn [orb andb]; euclid.
  - destruct (_ || _); destruct (_ || _); euclid.
Qed.

(** *** The records of [SpecFloat] and their keys *)

Lemma rec_key_of_loc (m : Z) (l : location) :
  rec_key (shr_record_of_loc m l) = key m l.
Proof.
  destruct l as [|[| |]]; unfold rec_key, key;
    cbn [shr_record_of_loc shr_m shr_r shr_s loc_code]; lia.
Qed.

Lemma key_of_rec (mrs : shr_record) :
  key (shr_m mrs) (loc_of_shr_record mrs) = rec_key mrs.
Proof.
  destruct mrs as [m [|] [|]]; unfold key, rec_key;
    cbn [loc_of_shr_record shr_m shr_r shr_s loc_code]; lia.
Qed.

Lemma key_div4 (m : Z) (l : location) : key m l / 4 = m.
Proof. unfold key. destruct l as [|[| |]]; cbn [loc_code]; euclid. Qed.

Lemma key_mod4 (m : Z) (l : location) : key m l mod 4 = loc_code l.
Proof. unfold key. destruct l as [|[| |]]; cbn [loc_code]; euclid. Qed.

Lemma rec_key_div4 (mrs : shr_record) : rec_key mrs / 4 = shr_m mrs.
Proof. rewrite <- key_of_rec. apply key_div4. Qed.

Lemma round_nearest_even_key (m : Z) (l : location) :
  round_nearest_even m l = rne_key (key m l).
Proof.
  unfold rne_key. rewrite key_div4, key_mod4.
  destruct l as [|[| |]]; cbn [loc_code round_nearest_even].
  - change (0 =? 3) with false. change (0 =? 2) with false. cbn [orb andb]. lia.
  - change (2 =? 3) with false. change (2 =? 2) with true. cbn [orb andb].
    rewrite <- Z.negb_even. destruct (Z.even m); cbn [negb]; lia.
  - change (1 =? 3) with false. change (1 =? 2) with false. cbn [orb andb]. lia.
  - change (3 =? 3) with true. cbn [orb]. lia.
Qed.

Lemma rec_key_shr_1 (mrs : shr_record) :
  0 <= shr_m mrs -> rec_key (shr_1 mrs) = sticky_half (rec_key mrs).
Proof.
  destruct mrs as [m r s]. cbn [shr_m]. intros Hm.
  unfold sticky_half, rec_key.
  destruct m as [|[p|p|]|p]; try lia;
    destruct r, s; cbn [shr_1 shr_m shr_r shr_s orb];
    match goal with |- context [?a mod 4 =? 1] => destruct (Z.eqb_spec (a mod 4) 1) end;
    euclid.
Qed.

Lemma shr_m_shr_1_nonneg (mrs : shr_record) :
  0 <= shr_m mrs -> 0 <= shr_m (shr_1 mrs).
Proof.
  destruct mrs as [m r s]. destruct m as [|[p|p|]|p]; cbn; lia.
Qed.

Lemma iter_pos_nat {A : Type} (f : A -> A) (p : positive) (x : A) :
  iter_pos f p x = Nat.iter (Pos.to_nat p) f x.
Proof.
  revert x. induction p as [p IH|p IH|]; intros x; cbn [iter_pos].
  - rewrite !IH, Pos2Nat.inj_xI.
    replace (S (2 * Pos.to_nat p)) with (Pos.to_nat p + (Pos.to_nat p + 1))%nat by lia.
    rewrite !Nat.iter_add. reflexivity.
  - rewrite !IH, Pos2Nat.inj_xO.
    replace (2 * Pos.to_nat p)%nat with (Pos.to_nat p + Pos.to_nat p)%nat by lia.
    rewrite Nat.iter_add. reflexivity.
  - reflexivity.
Qed.

Lemma rec_key_iter_shr_1 (n : nat) (mrs : shr_record) :
  0 <= shr_m mrs ->
  rec_key (Nat.iter n shr_1 mrs) = sticky_shift n (rec_key mrs)
  /\ 0 <= shr_m (Nat.iter n shr_1 mrs).
Proof.
  intros Hm. induction n as [|n [IH1 IH2]]; [split; [reflexivity | exact Hm]|].
  change (Nat.iter (S n) shr_1 mrs) with (shr_1 (Nat.iter n shr_1 mrs)). split.
  - rewrite rec_key_shr_1 by exact IH2. rewrite IH1. reflexivity.
  - apply shr_m_shr_1_nonneg, IH2.
Qed.

(** [shr] on a record is the sticky shift of its key, when the shift
    [n] is not negative. *)
Lemma shr_key (mrs : shr_record) (e n : Z) :
  0 <= shr_m mrs -> 0 <= n ->
  rec_key (fst (shr mrs e n)) = sticky_shift (Z.to_nat n) (rec_key mrs)
  /\ 0 <= shr_m (fst (shr mrs e n))
  /\ snd (shr mrs e n) = e + n.
Proof.
  intros Hm Hn. destruct n as [|p|p]; try lia.
  - cbn. repeat split; [exact Hm | lia].
  - cbn [shr fst snd]. rewrite iter_pos_nat.
    destruct (rec_key_iter_shr_1 (Pos.to_nat p) mrs Hm) as [H1 H2].
    change (Z.to_nat (Z.pos p)) with (Pos.to_nat p). auto.
Qed.

(** *** [binary_round_aux] as a function of the key *)

Lemma target_ge_emin (m e : Z) : -149 <= target m e.
Proof. unfold target, fexp, emin, F32.prec, F32.emax. lia. Qed.

Lemma target_eq (m e : Z) :
  target m e = Z.max (Zdigits2 m + e - 24) (-149).
Proof. reflexivity. Qed.

(** The mantissa left by the first shift has at most 24 digits. *)
Lemma shifted_mantissa_bound (m e : Z) :
  0 <= m -> e <= target m e ->
  0 <= m / 2 ^ (target m e - e) < 16777216.
Proof.
  intros Hm Ht.
  assert (Hp : 0 < 2 ^ (target m e - e)) by (apply Z.pow_pos_nonneg; lia).
  split; [apply Z.div_pos; lia|].
  apply Z.div_lt_upper_bound; [exact Hp|].
  destruct (Z.eq_dec m 0) as [->|Hn]; [lia|].
  destruct (Zdigits2_bounds m) as [_ Hhi]; [lia|].
  pose proof (Zdigits2_pos m ltac:(lia)) as Hd.
  assert (Hle : 2 ^ Zdigits2 m <= 2 ^ (target m e - e + 24)).
  { apply Z.pow_le_mono_r; [lia|]. rewrite target_eq in *. lia. }
  rewrite Z.pow_add_r in Hle by lia. change (2 ^ 24) with 16777216 in Hle. lia.
Qed.

(** Above the smallest exponent the shifted mantissa has exactly 24
    digits. *)
Lemma shifted_mantissa_normal (m e : Z) :
  0 < m -> e <= target m e -> -149 < target m e ->
  8388608 <= m / 2 ^ (target m e - e).
Proof.
  intros Hm Ht Hn.
  destruct (Zdigits2_bounds m Hm) as [Hlo _].
  assert (E : target m e - e = Zdigits2 m - 24) by (rewrite target_eq in *; lia).
  rewrite E. assert (Hd : 0 <= Zdigits2 m - 24) by lia.
  apply Z.div_le_lower_bound; [apply Z.pow_pos_nonneg; lia|].
  replace (Zdigits2 m - 1) with (Zdigits2 m - 24 + 23) in Hlo by lia.
  rewrite Z.pow_add_r in Hlo by lia. change (2 ^ 23) with 8388608 in Hlo. lia.
Qed.

Lemma shr_fexp_unfold (m e : Z) (l : location) :
  shr_fexp F32.prec F32.emax m e l
  = shr (shr_record_of_loc m l) e (target m e - e).
Proof. reflexivity. Qed.

(** The second normalisation of [binary_round_aux], on a mantissa of at
    most 25 digits that is already rounded. *)
Lemma renormalise (s : bool) (m2 t : Z) :
  0 <= m2 <= 16777216 -> -149 <= t ->
  (let '(mrs, e) := shr_fexp F32.prec F32.emax m2 t loc_Exact in
   match shr_m mrs with
   | 0 => S754_zero s
   | Z.pos m => if e <=? F32.emax - F32.prec then S754_finite s m e else S754_infinity s
   | Z.neg _ => S754_nan
   end) = finish s m2 t.
Proof.
  intros Hm Ht. rewrite shr_fexp_unfold. unfold finish.
  change (F32.emax - F32.prec) with 104.
  destruct (Z.eqb_spec m2 0) as [->|Hn0].
  { assert (E : target 0 t - t <= 0) by (rewrite target_eq; cbn [Zdigits2]; lia).
    destruct (target 0 t - t) as [|p|p]; try lia; reflexivity. }
  destruct (Z.eqb_spec m2 16777216) as [->|Hn1].
  { assert (E : target 16777216 t - t = 1).
    { rewrite target_eq. change (Zdigits2 16777216) with 25. lia. }
    rewrite E. reflexivity. }
  assert (Hd : Zdigits2 m2 <= 24).
  { destruct (Zdigits2_bounds m2) as [Hlo _]; [lia|].
    destruct (Z.le_gt_cases (Zdigits2 m2) 24) as [H|H]; [exact H|].
    assert (2 ^ 24 <= 2 ^ (Zdigits2 m2 - 1)) by (apply Z.pow_le_mono_r; lia).
    change (2 ^ 24) with 16777216 in *. lia. }
  assert (E : target m2 t - t <= 0) by (rewrite target_eq; lia).
  destruct (target m2 t - t) as [|p|p]; try lia;
    cbn [shr]; destruct m2 as [|p2|p2]; try lia;
    cbn [shr_record_of_loc shr_m]; reflexivity.
Qed.

Theorem binary_round_aux_key (s : bool) (m e : Z) (l : location) :
  0 <= m -> e <= target m e ->
  binary_round_aux F32.prec F32.emax s m e l = round_key s (key m l) e.
Proof.
  intros Hm Ht. unfold binary_round_aux, round_key. rewrite key_div4.
  rewrite shr_fexp_unfold.
  destruct (shr_key (shr_record_of_loc m l) e (target m e - e)) as (Hk & Hnn & He).
  { destruct l as [|[| |]]; exact Hm. }
  { lia. }
  destruct (shr (shr_record_of_loc m l) e (target m e - e)) as [mrs' e'].
  cbn [fst snd] in Hk, Hnn, He.
  rewrite rec_key_of_loc in Hk.
  rewrite round_nearest_even_key, key_of_rec, Hk.
  replace e' with (target m e) by lia.
  apply renormalise; [|apply target_ge_emin].
  pose proof (rne_key_bounds (sticky_shift (Z.to_nat (target m e - e)) (key m l))) as Hb.
  rewrite sticky_shift_div4, key_div4, Z2Nat.id in Hb by lia.
  pose proof (shifted_mantissa_bound m e Hm Ht). lia.
Qed.

(** *** Order of rounded results *)

Lemma SFleb_finite_pos (m1 m2 : positive) (e1 e2 : Z) :
  e1 < e2 \/ (e1 = e2 /\ (m1 <= m2)%positive) ->
  SFleb (S754_finite false m1 e1) (S754_finite false m2 e2) = true.
Proof.
  intros H. unfold SFleb, SFcompare.
  destruct (Z.compare_spec e1 e2) as [E|E|E]; try reflexivity; try lia.
  change (Pos.compare_cont Eq m1 m2) with (Pos.compare m1 m2).
  destruct (Pos.compare_spec m1 m2); try reflexivity. lia.
Qed.

Lemma finish_le (a b t1 t2 : Z) :
  0 <= a <= 16777216 -> 0 <= b <= 16777216 ->
  (t1 = t2 /\ a <= b) \/ (t1 < t2 /\ 8388608 <= b) ->
  SFleb (finish false a t1) (finish false b t2) = true.
Proof.
  intros Ha Hb H. unfold finish.
  destruct (Z.eqb_spec a 0) as [Ea|Ea].
  { destruct (b =? 0); [reflexivity|].
    destruct (b =? 16777216); [destruct (t2 + 1 <=? 104)|destruct (t2 <=? 104)];
      reflexivity. }
  destruct (Z.eqb_spec b 0) as [Eb|Eb]; [lia|].
  destruct (Z.eqb_spec a 16777216) as [Ea1|Ea1];
    destruct (Z.eqb_spec b 16777216) as [Eb1|Eb1];
    repeat match goal with
           | |- context [?x <=? 104] => destruct (Z.leb_spec x 104)
           end;
    try reflexivity; try lia;
    apply SFleb_finite_pos; lia.
Qed.

(** After rounding, a finite result has a canonical mantissa. *)
Lemma finish_valid (s : bool) (m t : Z) :
  0 <= m <= 16777216 -> -149 <= t -> (8388608 <= m \/ t = -149) ->
  valid_binary F32.prec F32.emax (finish s m t) = true.
Proof.
  intros Hm Ht Hs. unfold finish.
  destruct (Z.eqb_spec m 0); [reflexivity|].
  destruct (Z.eqb_spec m 16777216).
  { destruct (Z.leb_spec (t + 1) 104); [|reflexivity].
    unfold valid_binary, bounded, canonical_mantissa, fexp, emin, F32.prec, F32.emax.
    change (Z.pos (digits2_pos 8388608)) with 24.
    apply andb_true_intro. split; [apply Z.eqb_eq | apply Z.leb_le]; lia. }
  destruct (Z.leb_spec t 104); [|reflexivity].
  unfold valid_binary, bounded, canonical_mantissa, fexp, emin, F32.prec, F32.emax.
  assert (Hd : Z.pos (digits2_pos (Z.to_pos m)) = Zdigits2 m).
  { destruct m; try lia. reflexivity. }
  rewrite Hd.
  assert (Hd24 : Zdigits2 m <= 24).
  { destruct (Zdigits2_bounds m) as [Hlo _]; [lia|].
    destruct (Z.le_gt_cases (Zdigits2 m) 24) as [Hc|Hc]; [exact Hc|].
    assert (2 ^ 24 <= 2 ^ (Zdigits2 m - 1)) by (apply Z.pow_le_mono_r; lia).
    change (2 ^ 24) with 16777216 in *. lia. }
  apply andb_true_intro. split; [apply Z.eqb_eq | apply Z.leb_le; lia].
  destruct Hs as [Hs|Hs]; [|lia].
  assert (Zdigits2 m = 24); [|lia].
  apply Zdigits2_unique; [lia|]. change (2 ^ (24 - 1)) with 8388608.
  change (2 ^ 24) with 16777216. lia.
Qed.

(** *** Rounding is monotone *)

Lemma round_key_bounds (k e : Z) :
  0 <= k -> e <= target (k / 4) e ->
  let t := target (k / 4) e in
  let r := rne_key (sticky_shift (Z.to_nat (t - e)) k) in
  0 <= r <= 16777216 /\ (-149 < t -> 0 < k / 4 -> 8388608 <= r).
Proof.
  intros Hk Ht t r.
  assert (Hm : 0 <= k / 4) by (apply Z.div_pos; lia).
  pose proof (rne_key_bounds (sticky_shift (Z.to_nat (t - e)) k)) as Hb.
  rewrite sticky_shift_div4, Z2Nat.id in Hb by (subst t; lia).
  pose proof (shifted_mantissa_bound (k / 4) e Hm Ht) as Hs.
  fold t in Hs. fold r in Hb. split; [lia|].
  intros Hn Hpos.
  pose proof (shifted_mantissa_normal (k / 4) e Hpos Ht Hn) as Hs'.
  fold t in Hs'. lia.
Qed.

Theorem round_key_mono (k1 k2 e : Z) :
  0 <= k1 <= k2 ->
  e <= target (k1 / 4) e -> e <= target (k2 / 4) e ->
  SFleb (round_key false k1 e) (round_key false k2 e) = true.
Proof.
  intros [H0 Hle] Ht1 Ht2.
  assert (Hm : 0 <= k1 / 4 <= k2 / 4).
  { split; [apply Z.div_pos; lia | apply Z.div_le_mono; lia]. }
  pose proof (Zdigits2_le _ _ Hm) as Hd.
  destruct (round_key_bounds k1 e H0 Ht1) as [B1 _].
  destruct (round_key_bounds k2 e ltac:(lia) Ht2) as [B2 N2].
  unfold round_key. apply finish_le; [exact B1 | exact B2 |].
  cbv zeta in *.
  destruct (Z.eq_dec (target (k1 / 4) e) (target (k2 / 4) e)) as [E|NE].
  - left. split; [exact E|]. rewrite E.
    apply rne_key_mono, sticky_shift_mono, Hle.
  - right. assert (Hlt : target (k1 / 4) e < target (k2 / 4) e).
    { rewrite !target_eq in *. lia. }
    split; [exact Hlt|]. apply N2.
    + pose proof (target_ge_emin (k1 / 4) e). lia.
    + destruct (Z.eq_dec (k2 / 4) 0) as [Z0|]; [|lia].
      assert (k1 / 4 = 0) by lia. congruence.
Qed.

(** *** Rounding does not depend on the scale of the input *)

Lemma round_key_rescale_1 (s : bool) (k' k e : Z) :
  0 <= k' -> sticky_half k' = k -> 0 < k / 4 -> e <= target (k / 4) e ->
  round_key s k' (e - 1) = round_key s k e.
Proof.
  intros Hk' Hs Hm Ht.
  assert (Hq : k' / 4 / 2 = k / 4) by (rewrite <- Hs; symmetry; apply sticky_half_div4).
  assert (Hd : Zdigits2 (k' / 4) = Zdigits2 (k / 4) + 1).
  { replace (k' / 4) with (2 * (k / 4) + (k' / 4) mod 2) by euclid.
    apply Zdigits2_double; [exact Hm | euclid]. }
  assert (Et : target (k' / 4) (e - 1) = target (k / 4) e).
  { rewrite !target_eq, Hd. f_equal. lia. }
  unfold round_key. rewrite Et.
  replace (Z.to_nat (target (k / 4) e - (e - 1)))
    with (S (Z.to_nat (target (k / 4) e - e))) by lia.
  rewrite sticky_shift_S, Hs. reflexivity.
Qed.

Lemma Zdigits2_mul_pow2 (m : Z) (j : nat) :
  0 < m -> Zdigits2 (m * 2 ^ Z.of_nat j) = Zdigits2 m + Z.of_nat j.
Proof.
  intros Hm. induction j as [|j IH].
  - rewrite Z.mul_1_r. cbn. lia.
  - rewrite Nat2Z.inj_succ, Z.pow_succ_r by lia.
    replace (m * (2 * 2 ^ Z.of_nat j)) with (2 * (m * 2 ^ Z.of_nat j) + 0) by lia.
    rewrite Zdigits2_double; [lia | | lia].
    apply Z.mul_pos_pos; [exact Hm | apply Z.pow_pos_nonneg; lia].
Qed.

(** An exact input can be given at any lower exponent. *)
Lemma round_key_rescale_exact (s : bool) (m e : Z) (j : nat) :
  0 < m -> e <= target m e ->
  round_key s (4 * (m * 2 ^ Z.of_nat j)) (e - Z.of_nat j) = round_key s (4 * m) e.
Proof.
  intros Hm Ht. induction j as [|j IH].
  - rewrite Z.mul_1_r. f_equal. cbn. lia.
  - rewrite <- IH.
    replace (e - Z.of_nat (S j)) with (e - Z.of_nat j - 1) by lia.
    assert (Hp : 0 < m * 2 ^ Z.of_nat j).
    { apply Z.mul_pos_pos; [exact Hm | apply Z.pow_pos_nonneg; lia]. }
    assert (Hq : 4 * (m * 2 ^ Z.of_nat j) / 4 = m * 2 ^ Z.of_nat j) by euclid.
    apply round_key_rescale_1.
    + rewrite Nat2Z.inj_succ, Z.pow_succ_r by lia. lia.
    + rewrite Nat2Z.inj_succ, Z.pow_succ_r by lia.
      replace (4 * (m * (2 * 2 ^ Z.of_nat j))) with (2 * (4 * (m * 2 ^ Z.of_nat j))) by lia.
      apply sticky_half_double.
    + rewrite Hq. exact Hp.
    + rewrite Hq, target_eq, Zdigits2_mul_pow2 by exact Hm.
      rewrite target_eq in Ht. lia.
Qed.

(** *** Canonical binary32 numbers *)

Lemma bounded_inv (m : positive) (e : Z) :
  bounded F32.prec F32.emax m e = true ->
  -149 <= e <= 104
  /\ Zdigits2 (Z.pos m) <= 24
  /\ (Zdigits2 (Z.pos m) = 24 \/ e = -149).
Proof.
  unfold bounded, canonical_mantissa, fexp, emin, F32.prec, F32.emax.
  intros H. apply andb_prop in H. destruct H as [H1 H2].
  apply Z.eqb_eq in H1. apply Z.leb_le in H2.
  change (Z.pos (digits2_pos m)) with (Zdigits2 (Z.pos m)) in H1. lia.
Qed.

Lemma canonical_range (m : positive) (e : Z) :
  bounded F32.prec F32.emax m e = true ->
  Z.pos m < 16777216 /\ (-149 < e -> 8388608 <= Z.pos m).
Proof.
  intros H. destruct (bounded_inv m e H) as (He & Hd & Hn).
  destruct (Zdigits2_bounds (Z.pos m)) as [Hlo Hhi]; [lia|].
  split.
  - assert (2 ^ Zdigits2 (Z.pos m) <= 2 ^ 24) by (apply Z.pow_le_mono_r; lia).
    change (2 ^ 24) with 16777216 in *. lia.
  - intros Hgt. destruct Hn as [Hn|Hn]; [|lia].
    rewrite Hn in Hlo. change (2 ^ (24 - 1)) with 8388608 in Hlo. exact Hlo.
Qed.

Lemma SFleb_finite_pos_inv (m1 m2 : positive) (e1 e2 : Z) :
  SFleb (S754_finite false m1 e1) (S754_finite false m2 e2) = true ->
  e1 < e2 \/ (e1 = e2 /\ (m1 <= m2)%positive).
Proof.
  unfold SFleb, SFcompare.
  destruct (Z.compare_spec e1 e2) as [E|E|E]; try discriminate; [|lia].
  change (Pos.compare_cont Eq m1 m2) with (Pos.compare m1 m2).
  destruct (Pos.compare_spec m1 m2); try discriminate; lia.
Qed.

(** For canonical numbers the order of the representations is the order
    of the values: at the exponent of the smaller one, the mantissas
    compare. *)
Lemma canonical_le_scaled (m1 m2 : positive) (e1 e2 : Z) :
  bounded F32.prec F32.emax m1 e1 = true ->
  bounded F32.prec F32.emax m2 e2 = true ->
  SFleb (S754_finite false m1 e1) (S754_finite false m2 e2) = true ->
  e1 <= e2 /\ Z.pos m1 <= Z.pos m2 * 2 ^ (e2 - e1).
Proof.
  intros B1 B2 H. apply SFleb_finite_pos_inv in H.
  destruct (canonical_range m1 e1 B1) as [U1 _].
  destruct (canonical_range m2 e2 B2) as [_ L2].
  destruct (bounded_inv m1 e1 B1) as (He1 & _).
  destruct H as [H|[-> H]].
  - split; [lia|].
    assert (2 ^ 1 <= 2 ^ (e2 - e1)) by (apply Z.pow_le_mono_r; lia).
    change (2 ^ 1) with 2 in *. nia.
  - split; [lia|]. rewrite Z.sub_diag. lia.
Qed.

(** *** Multiplication *)

Lemma Zdigits2_mul_ge (a b : Z) :
  0 < a -> 0 < b -> Zdigits2 a + Zdigits2 b - 1 <= Zdigits2 (a * b).
Proof.
  intros Ha Hb.
  destruct (Zdigits2_bounds a Ha) as [La _]. destruct (Zdigits2_bounds b Hb) as [Lb _].
  pose proof (Zdigits2_pos a Ha). pose proof (Zdigits2_pos b Hb).
  assert (Hab : 0 < a * b) by lia.
  destruct (Zdigits2_bounds (a * b) Hab) as [_ U].
  destruct (Z.le_gt_cases (Zdigits2 a + Zdigits2 b - 1) (Zdigits2 (a * b))) as [Hc|Hc];
    [exact Hc|].
  assert (Hp : 2 ^ Zdigits2 (a * b) <= 2 ^ (Zdigits2 a - 1 + (Zdigits2 b - 1))).
  { apply Z.pow_le_mono_r; lia. }
  rewrite Z.pow_add_r in Hp by lia.
  assert (2 ^ (Zdigits2 a - 1) * 2 ^ (Zdigits2 b - 1) <= a * b).
  { apply Z.mul_le_mono_nonneg; try lia; apply Z.pow_nonneg; lia. }
  lia.
Qed.

(** The product of two canonical mantissas is never shifted left. *)
Lemma mul_target (mx mc : positive) (ex ec : Z) :
  bounded F32.prec F32.emax mx ex = true ->
  bounded F32.prec F32.emax mc ec = true ->
  ex + ec <= target (Z.pos mx * Z.pos mc) (ex + ec).
Proof.
  intros Bx Bc.
  destruct (bounded_inv mx ex Bx) as (Hex & Hdx & Hnx).
  destruct (bounded_inv mc ec Bc) as (Hec & Hdc & Hnc).
  pose proof (Zdigits2_mul_ge (Z.pos mx) (Z.pos mc) ltac:(lia) ltac:(lia)) as Hd.
  pose proof (Zdigits2_pos (Z.pos mx) ltac:(lia)).
  pose proof (Zdigits2_pos (Z.pos mc) ltac:(lia)).
  rewrite target_eq. lia.
Qed.

Lemma mul_finite_key (sx : bool) (mx mc : positive) (ex ec : Z) :
  bounded F32.prec F32.emax mx ex = true ->
  bounded F32.prec F32.emax mc ec = true ->
  F32.mul (S754_finite sx mx ex) (S754_finite false mc ec)
  = round_key sx (4 * (Z.pos mx * Z.pos mc)) (ex + ec).
Proof.
  intros Bx Bc. unfold F32.mul, SFmul. rewrite xorb_false_r.
  change (Z.pos (mx * mc)) with (Z.pos mx * Z.pos mc).
  rewrite binary_round_aux_key; [| lia | apply mul_target; assumption].
  unfold key. cbn [loc_code]. f_equal; lia.
Qed.

Theorem mul_pos_mono (m1 m2 mc : positive) (e1 e2 ec : Z) :
  bounded F32.prec F32.emax m1 e1 = true ->
  bounded F32.prec F32.emax m2 e2 = true ->
  bounded F32.prec F32.emax mc ec = true ->
  SFleb (S754_finite false m1 e1) (S754_finite false m2 e2) = true ->
  SFleb (F32.mul (S754_finite false m1 e1) (S754_finite false mc ec))
        (F32.mul (S754_finite false m2 e2) (S754_finite false mc ec)) = true.
Proof.
  intros B1 B2 Bc H.
  rewrite !mul_finite_key by assumption.
  destruct (canonical_le_scaled m1 m2 e1 e2 B1 B2 H) as [He Hm].
  pose proof (mul_target m1 mc e1 ec B1 Bc) as T1.
  pose proof (mul_target m2 mc e2 ec B2 Bc) as T2.
  pose proof (round_key_rescale_exact false (Z.pos m2 * Z.pos mc) (e2 + ec)
                (Z.to_nat (e2 - e1)) ltac:(lia) T2) as R.
  rewrite Z2Nat.id in R by lia.
  replace (e2 + ec - (e2 - e1)) with (e1 + ec) in R by lia.
  rewrite <- R.
  assert (Q1 : 4 * (Z.pos m1 * Z.pos mc) / 4 = Z.pos m1 * Z.pos mc) by euclid.
  assert (Q2 : 4 * (Z.pos m2 * Z.pos mc * 2 ^ (e2 - e1)) / 4
               = Z.pos m2 * Z.pos mc * 2 ^ (e2 - e1)) by euclid.
  apply round_key_mono.
  - nia.
  - rewrite Q1. exact T1.
  - rewrite Q2.
    pose proof (Zdigits2_mul_pow2 (Z.pos m2 * Z.pos mc) (Z.to_nat (e2 - e1)) ltac:(lia)) as D.
    rewrite Z2Nat.id in D by lia.
    rewrite target_eq, D. rewrite target_eq in T2. lia.
Qed.

(** *** Square root *)

Lemma sqrt_key_div4 (y : Z) : 0 <= y -> sqrt_key y / 4 = Z.sqrt y.
Proof.
  intros Hy. unfold sqrt_key. cbv zeta.
  destruct (_ =? 0); [|destruct (_ <=? _)]; euclid.
Qed.

Lemma sqrt_key_mono (y1 y2 : Z) : 0 <= y1 <= y2 -> sqrt_key y1 <= sqrt_key y2.
Proof.
  intros [H0 Hle]. unfold sqrt_key. cbv zeta.
  pose proof (Z.sqrt_le_mono y1 y2 Hle) as Hq.
  pose proof (Z.sqrt_spec y1 H0) as S1. pose proof (Z.sqrt_spec y2 ltac:(lia)) as S2.
  cbv zeta in S1, S2.
  destruct (Z.eq_dec (Z.sqrt y1) (Z.sqrt y2)) as [E|NE].
  - rewrite E in *.
    destruct (Z.eqb_spec (y1 - Z.sqrt y2 * Z.sqrt y2) 0);
      destruct (Z.eqb_spec (y2 - Z.sqrt y2 * Z.sqrt y2) 0);
      destruct (Z.leb_spec (y1 - Z.sqrt y2 * Z.sqrt y2) (Z.sqrt y2));
      destruct (Z.leb_spec (y2 - Z.sqrt y2 * Z.sqrt y2) (Z.sqrt y2)); lia.
  - destruct (_ =? 0); destruct (_ =? 0); repeat destruct (_ <=? _); lia.
Qed.

(** The located square root of [4 * y], shifted by one bit, is the
    located square root of [y]. *)
Lemma sqrt_key_quarter (y : Z) :
  0 <= y -> sticky_half (sqrt_key (4 * y)) = sqrt_key y.
Proof.
  intros Hy. unfold sqrt_key. cbv zeta.
  pose proof (Z.sqrt_spec y Hy) as S1. pose proof (Z.sqrt_spec (4 * y) ltac:(lia)) as S2.
  pose proof (Z.sqrt_nonneg y) as N1. pose proof (Z.sqrt_nonneg (4 * y)) as N2.
  cbv zeta in S1, S2.
  generalize dependent (Z.sqrt (4 * y)). generalize dependent (Z.sqrt y).
  intros q S1 N1 Q S2 N2.
  assert (HQ : Q = 2 * q \/ Q = 2 * q + 1) by nia.
  unfold sticky_half.
  destruct HQ as [-> | ->].
  - assert (Hr : y - q * q <= q) by nia.
    replace (4 * y - 2 * q * (2 * q)) with (4 * (y - q * q)) by ring.
    destruct (Z.eqb_spec (y - q * q) 0) as [E0|E0].
    + rewrite E0. change (4 * 0 =? 0) with true. cbv iota.
      destruct (Z.eqb_spec ((4 * (2 * q) + 0) mod 4) 1); euclid.
    + destruct (Z.eqb_spec (4 * (y - q * q)) 0); [lia|].
      destruct (Z.leb_spec (y - q * q) q); [|lia].
      destruct (Z.leb_spec (4 * (y - q * q)) (2 * q));
        match goal with |- context [?a mod 4 =? 1] => destruct (Z.eqb_spec (a mod 4) 1) end;
        euclid.
  - assert (Hr : q < y - q * q) by nia.
    destruct (Z.eqb_spec (y - q * q) 0); [lia|].
    destruct (Z.leb_spec (y - q * q) q); [lia|].
    destruct (Z.eqb_spec (4 * y - (2 * q + 1) * (2 * q + 1)) 0); [nia|].
    destruct (Z.leb_spec (4 * y - (2 * q + 1) * (2 * q + 1)) (2 * q + 1));
      match goal with |- context [?a mod 4 =? 1] => destruct (Z.eqb_spec (a mod 4) 1) end;
      euclid.
Qed.

Lemma rescale_target (k' k e : Z) :
  sticky_half k' = k -> 0 < k / 4 ->
  target (k' / 4) (e - 1) = target (k / 4) e.
Proof.
  intros Hs Hm.
  assert (Hq : k' / 4 / 2 = k / 4) by (rewrite <- Hs; symmetry; apply sticky_half_div4).
  assert (Hd : Zdigits2 (k' / 4) = Zdigits2 (k / 4) + 1).
  { replace (k' / 4) with (2 * (k / 4) + (k' / 4) mod 2) by euclid.
    apply Zdigits2_double; [exact Hm | euclid]. }
  rewrite !target_eq, Hd. f_equal. lia.
Qed.

Lemma sqrt_pos (y : Z) : 0 < y -> 0 < Z.sqrt y.
Proof. intros H. apply Z.sqrt_pos. exact H. Qed.

(** A square root can be taken at any lower exponent. *)
Lemma round_key_rescale_sqrt (s : bool) (y e : Z) (j : nat) :
  0 < y -> e <= target (Z.sqrt y) e ->
  round_key s (sqrt_key (y * 4 ^ Z.of_nat j)) (e - Z.of_nat j) = round_key s (sqrt_key y) e
  /\ target (Z.sqrt (y * 4 ^ Z.of_nat j)) (e - Z.of_nat j) = target (Z.sqrt y) e.
Proof.
  intros Hy Ht. induction j as [|j [IH1 IH2]].
  - rewrite Z.mul_1_r. replace (e - Z.of_nat 0) with e by (cbn; lia). split; reflexivity.
  - assert (Hp : 0 < y * 4 ^ Z.of_nat j).
    { apply Z.mul_pos_pos; [exact Hy | apply Z.pow_pos_nonneg; lia]. }
    assert (Ey : y * 4 ^ Z.of_nat (S j) = 4 * (y * 4 ^ Z.of_nat j)).
    { rewrite Nat2Z.inj_succ, Z.pow_succ_r by lia. ring. }
    pose proof (sqrt_key_quarter (y * 4 ^ Z.of_nat j) ltac:(lia)) as Hq.
    pose proof (sqrt_pos _ Hp) as Hs.
    assert (Hd : sqrt_key (y * 4 ^ Z.of_nat j) / 4 = Z.sqrt (y * 4 ^ Z.of_nat j))
      by (apply sqrt_key_div4; lia).
    replace (e - Z.of_nat (S j)) with (e - Z.of_nat j - 1) by lia.
    rewrite Ey. split.
    + rewrite <- IH1. apply round_key_rescale_1.
      * unfold sqrt_key. cbv zeta. pose proof (Z.sqrt_nonneg (4 * (y * 4 ^ Z.of_nat j))).
        destruct (_ =? 0); [|destruct (_ <=? _)]; lia.
      * exact Hq.
      * rewrite Hd. exact Hs.
      * rewrite Hd, IH2. lia.
    + rewrite <- IH2, <- Hd.
      rewrite <- (sqrt_key_div4 (4 * (y * 4 ^ Z.of_nat j))) by lia.
      apply rescale_target; [exact Hq | rewrite Hd; exact Hs].
Qed.

Lemma sqrt_exp_le (m e : Z) : 2 * sqrt_exp m e <= e.
Proof.
  unfold sqrt_exp. rewrite (Z.div2_div e).
  assert (2 * (e / 2) <= e) by euclid. lia.
Qed.

(** The integer square root that [SFsqrt] rounds has at least 24 digits
    (or sits at the smallest exponent), so it is never shifted left. *)
Lemma sqrt_target (m : positive) (e : Z) :
  let e' := sqrt_exp (Z.pos m) e in
  e' <= target (Z.sqrt (Z.pos m * 2 ^ (e - 2 * e'))) e'.
Proof.
  cbv zeta. set (e' := sqrt_exp (Z.pos m) e). set (y := Z.pos m * 2 ^ (e - 2 * e')).
  pose proof (sqrt_exp_le (Z.pos m) e) as Hle. fold e' in Hle.
  destruct (Z.le_gt_cases e' (-149)) as [Hs|Hs].
  { pose proof (target_ge_emin (Z.sqrt y) e'). lia. }
  assert (He' : 2 * e' <= Zdigits2 (Z.pos m) + e + 1 - 48).
  { unfold e', sqrt_exp, fexp, emin, F32.prec, F32.emax in *.
    rewrite (Z.div2_div (Zdigits2 (Z.pos m) + e + 1)) in *.
    assert (2 * ((Zdigits2 (Z.pos m) + e + 1) / 2) <= Zdigits2 (Z.pos m) + e + 1) by euclid.
    lia. }
  destruct (Zdigits2_bounds (Z.pos m)) as [Hlo _]; [lia|].
  pose proof (Zdigits2_pos (Z.pos m) ltac:(lia)) as Hd.
  assert (Hy : 2 ^ 46 <= y).
  { unfold y.
    assert (2 ^ 46 <= 2 ^ (Zdigits2 (Z.pos m) - 1 + (e - 2 * e'))).
    { apply Z.pow_le_mono_r; lia. }
    rewrite Z.pow_add_r in H by lia.
    assert (2 ^ (Zdigits2 (Z.pos m) - 1) * 2 ^ (e - 2 * e')
            <= Z.pos m * 2 ^ (e - 2 * e')).
    { apply Z.mul_le_mono_nonneg_r; [apply Z.pow_nonneg; lia | exact Hlo]. }
    lia. }
  assert (Hq : 8388608 <= Z.sqrt y).
  { apply Z.sqrt_le_square; [|lia|]; change (2 ^ 46) with 70368744177664 in Hy; lia. }
  pose proof (Zdigits2_le 8388608 (Z.sqrt y) ltac:(lia)) as Hdq.
  change (Zdigits2 8388608) with 24 in Hdq.
  rewrite target_eq. lia.
Qed.

Lemma sqrt_core_key (m : positive) (e : Z) :
  let e' := sqrt_exp (Z.pos m) e in
  let y := Z.pos m * 2 ^ (e - 2 * e') in
  exists l,
    SFsqrt_core_binary F32.prec F32.emax (Z.pos m) e = (Z.sqrt y, e', l)
    /\ key (Z.sqrt y) l = sqrt_key y.
Proof.
  cbv zeta. unfold SFsqrt_core_binary.
  change (Z.min (fexp F32.prec F32.emax (Z.div2 (Zdigits2 (Z.pos m) + e + 1))) (Z.div2 e))
    with (sqrt_exp (Z.pos m) e).
  set (e' := sqrt_exp (Z.pos m) e).
  pose proof (sqrt_exp_le (Z.pos m) e) as Hle. fold e' in Hle.
  set (y := Z.pos m * 2 ^ (e - 2 * e')).
  assert (Em : match e - 2 * e' with
               | 0 => Z.pos m
               | Z.pos _ => Z.shiftl (Z.pos m) (e - 2 * e')
               | Z.neg _ => 0
               end = y).
  { unfold y. destruct (e - 2 * e') as [|p|p] eqn:Es; [lia| |lia].
    rewrite Z.shiftl_mul_pow2 by lia. reflexivity. }
  rewrite Em.
  assert (Hy : 0 <= y) by (unfold y; apply Z.mul_nonneg_nonneg; [lia | apply Z.pow_nonneg; lia]).
  pose proof (Z.sqrtrem_spec y Hy) as Hspec.
  pose proof (Z.sqrtrem_sqrt y) as Hfst.
  destruct (Z.sqrtrem y) as [q r]. cbn [fst] in Hfst. subst q.
  destruct Hspec as [Hyr Hr].
  eexists. split; [reflexivity|].
  unfold key, sqrt_key. cbv zeta.
  replace (y - Z.sqrt y * Z.sqrt y) with r by lia.
  destruct (r =? 0); [reflexivity|]. destruct (r <=? Z.sqrt y); reflexivity.
Qed.

Lemma sqrtf_finite_key (m : positive) (e : Z) :
  let e' := sqrt_exp (Z.pos m) e in
  F32.sqrtf (S754_finite false m e)
  = round_key false (sqrt_key (Z.pos m * 2 ^ (e - 2 * e'))) e'.
Proof.
  cbv zeta. unfold F32.sqrtf, SFsqrt.
  destruct (sqrt_core_key m e) as (l & Hc & Hk). cbv zeta in Hc, Hk.
  rewrite Hc, <- Hk.
  apply binary_round_aux_key; [apply Z.sqrt_nonneg | apply sqrt_target].
Qed.

Theorem sqrtf_pos_mono (m1 m2 : positive) (e1 e2 : Z) :
  bounded F32.prec F32.emax m1 e1 = true ->
  bounded F32.prec F32.emax m2 e2 = true ->
  SFleb (S754_finite false m1 e1) (S754_finite false m2 e2) = true ->
  SFleb (F32.sqrtf (S754_finite false m1 e1)) (F32.sqrtf (S754_finite false m2 e2)) = true.
Proof.
  intros B1 B2 H.
  destruct (canonical_le_scaled m1 m2 e1 e2 B1 B2 H) as [He Hm].
  rewrite !sqrtf_finite_key. cbv zeta.
  set (a1 := sqrt_exp (Z.pos m1) e1). set (a2 := sqrt_exp (Z.pos m2) e2).
  pose proof (sqrt_exp_le (Z.pos m1) e1) as L1. fold a1 in L1.
  pose proof (sqrt_exp_le (Z.pos m2) e2) as L2. fold a2 in L2.
  pose proof (sqrt_target m1 e1) as T1. cbv zeta in T1. fold a1 in T1.
  pose proof (sqrt_target m2 e2) as T2. cbv zeta in T2. fold a2 in T2.
  set (a0 := Z.min a1 a2).
  set (y1 := Z.pos m1 * 2 ^ (e1 - 2 * a1)) in *.
  set (y2 := Z.pos m2 * 2 ^ (e2 - 2 * a2)) in *.
  assert (P1 : 0 < y1) by (apply Z.mul_pos_pos; [lia | apply Z.pow_pos_nonneg; lia]).
  assert (P2 : 0 < y2) by (apply Z.mul_pos_pos; [lia | apply Z.pow_pos_nonneg; lia]).
  destruct (round_key_rescale_sqrt false y1 a1 (Z.to_nat (a1 - a0)) P1 T1) as [R1 G1].
  destruct (round_key_rescale_sqrt false y2 a2 (Z.to_nat (a2 - a0)) P2 T2) as [R2 G2].
  rewrite Z2Nat.id in R1, G1, R2, G2 by lia.
  replace (a1 - (a1 - a0)) with a0 in R1, G1 by lia.
  replace (a2 - (a2 - a0)) with a0 in R2, G2 by lia.
  rewrite <- R1, <- R2.
  assert (E1 : y1 * 4 ^ (a1 - a0) = Z.pos m1 * 2 ^ (e1 - 2 * a0)).
  { unfold y1. change 4 with (2 ^ 2). rewrite <- Z.pow_mul_r by lia.
    rewrite <- Z.mul_assoc, <- Z.pow_add_r by lia. f_equal. f_equal. lia. }
  assert (E2 : y2 * 4 ^ (a2 - a0) = Z.pos m2 * 2 ^ (e2 - 2 * a0)).
  { unfold y2. change 4 with (2 ^ 2). rewrite <- Z.pow_mul_r by lia.
    rewrite <- Z.mul_assoc, <- Z.pow_add_r by lia. f_equal. f_equal. lia. }
  rewrite E1, E2 in *.
  assert (Hle : Z.pos m1 * 2 ^ (e1 - 2 * a0) <= Z.pos m2 * 2 ^ (e2 - 2 * a0)).
  { replace (e2 - 2 * a0) with (e2 - e1 + (e1 - 2 * a0)) by lia.
    rewrite Z.pow_add_r by lia. rewrite Z.mul_assoc.
    apply Z.mul_le_mono_nonneg_r; [apply Z.pow_nonneg; lia | exact Hm]. }
  assert (N1 : 0 <= Z.pos m1 * 2 ^ (e1 - 2 * a0)).
  { apply Z.mul_nonneg_nonneg; [lia | apply Z.pow_nonneg; lia]. }
  apply round_key_mono.
  - split; [|apply sqrt_key_mono; lia].
    transitivity (sqrt_key 0); [vm_compute; discriminate | apply sqrt_key_mono; lia].
  - rewrite sqrt_key_div4, G1 by lia. lia.
  - rewrite sqrt_key_div4, G2 by lia. lia.
Qed.

(** *** Signs *)

Lemma finish_is_nonneg (m t : Z) : is_nonneg (finish false m t) = true.
Proof.
  unfold finish. destruct (m =? 0); [reflexivity|].
  destruct (m =? 16777216); [destruct (t + 1 <=? 104)|destruct (t <=? 104)]; reflexivity.
Qed.

Lemma is_nonneg_ge_zero (x : spec_float) :
  is_nonneg x = true -> SFleb (S754_zero false) x = true.
Proof. destruct x as [[|]|[|]| |[|] m e]; try discriminate; reflexivity. Qed.

Lemma is_nonneg_le_inf (x : spec_float) :
  is_nonneg x = true -> SFleb x (S754_infinity false) = true.
Proof. destruct x as [[|]|[|]| |[|] m e]; try discriminate; reflexivity. Qed.

Lemma nonneg_float_is_nonneg (x : spec_float) :
  nonneg_float x = true -> is_nonneg x = true.
Proof. destruct x as [[|]|[|]| |[|] m e]; try discriminate; reflexivity. Qed.

(** The clamp leaves a number that is not negative as it is. *)
Lemma Max_is_nonneg (x : spec_float) :
  is_nonneg x = true -> Max x F32.of_int_0 = x.
Proof. destruct x as [[|]|[|]| |[|] m e]; try discriminate; reflexivity. Qed.

(** A rounded result with the sign bit set is never greater than zero. *)
Lemma binary_round_aux_negative (m e : Z) (l : location) :
  F32.gt (binary_round_aux F32.prec F32.emax true m e l) F32.of_int_0 = false.
Proof.
  unfold binary_round_aux.
  destruct (shr_fexp F32.prec F32.emax m e l) as [mrs' e'].
  destruct (shr_fexp F32.prec F32.emax _ e' loc_Exact) as [mrs'' e''].
  destruct (shr_m mrs''); [reflexivity| |reflexivity].
  destruct (e'' <=? F32.emax - F32.prec); reflexivity.
Qed.

Lemma sqrtf_is_nonneg (x : spec_float) :
  is_nonneg x = true -> is_nonneg (F32.sqrtf x) = true.
Proof.
  destruct x as [[|]|[|]| |[|] m e]; try discriminate; intros _; try reflexivity.
  rewrite sqrtf_finite_key. apply finish_is_nonneg.
Qed.

(** *** The product with a positive constant, clamped at zero *)

Lemma round_key_nonneg_float (k e : Z) :
  0 <= k -> e <= target (k / 4) e -> nonneg_float (round_key false k e) = true.
Proof.
  intros Hk Ht.
  destruct (round_key_bounds k e Hk Ht) as [B N]. cbv zeta in B, N.
  assert (V : valid_binary F32.prec F32.emax (round_key false k e) = true).
  { unfold round_key. apply finish_valid; [exact B | apply target_ge_emin |].
    pose proof (target_ge_emin (k / 4) e) as Hmin.
    destruct (Z.eq_dec (target (k / 4) e) (-149)) as [E|NE]; [right; exact E|].
    left. apply N; [lia|].
    destruct (Z.eq_dec (k / 4) 0) as [Z0|NZ].
    - exfalso. rewrite Z0 in *. rewrite target_eq in *. cbn [Zdigits2] in *. lia.
    - assert (0 <= k / 4) by (apply Z.div_pos; lia). lia. }
  pose proof (finish_is_nonneg (rne_key (sticky_shift (Z.to_nat (target (k / 4) e - e)) k))
                (target (k / 4) e)) as S.
  fold (round_key false k e) in S.
  destruct (round_key false k e) as [[|]|[|]| |[|] m' e']; try discriminate; try reflexivity.
  exact V.
Qed.

Lemma mul_pos_nonneg_float (mc m : positive) (ec e : Z) :
  bounded F32.prec F32.emax mc ec = true ->
  bounded F32.prec F32.emax m e = true ->
  nonneg_float (F32.mul (S754_finite false m e) (S754_finite false mc ec)) = true.
Proof.
  intros Hc B. rewrite mul_finite_key by assumption.
  apply round_key_nonneg_float; [lia|].
  replace (4 * (Z.pos m * Z.pos mc) / 4) with (Z.pos m * Z.pos mc) by euclid.
  apply mul_target; assumption.
Qed.

(** What the clamped product is, by the kind of its argument. *)
Lemma clamp_mul_cases (mc : positive) (ec : Z) (q : spec_float) :
  bounded F32.prec F32.emax mc ec = true ->
  F32.valid q = true ->
  Max (F32.mul q (S754_finite false mc ec)) F32.of_int_0
  = match q with
    | S754_finite false m e => F32.mul q (S754_finite false mc ec)
    | S754_infinity false => S754_infinity false
    | _ => S754_zero false
    end.
Proof.
  intros Hc V. destruct q as [[|]|[|]| |[|] m e]; try reflexivity.
  - unfold F32.mul, SFmul, Max. cbn [xorb].
    rewrite binary_round_aux_negative. reflexivity.
  - apply Max_is_nonneg, nonneg_float_is_nonneg, mul_pos_nonneg_float; assumption.
Qed.

Lemma clamp_mul_nonneg_float (mc : positive) (ec : Z) (q : spec_float) :
  bounded F32.prec F32.emax mc ec = true ->
  F32.valid q = true ->
  nonneg_float (Max (F32.mul q (S754_finite false mc ec)) F32.of_int_0) = true.
Proof.
  intros Hc V. rewrite clamp_mul_cases by assumption.
  destruct q as [[|]|[|]| |[|] m e]; try reflexivity.
  apply mul_pos_nonneg_float; assumption.
Qed.

Lemma clamp_mul_mono (mc : positive) (ec : Z) (q1 q2 : spec_float) :
  bounded F32.prec F32.emax mc ec = true ->
  F32.valid q1 = true -> F32.valid q2 = true ->
  SFleb q1 q2 = true ->
  SFleb (Max (F32.mul q1 (S754_finite false mc ec)) F32.of_int_0) (Max (F32.mul q2 (S754_finite false mc ec)) F32.of_int_0) = true.
Proof.
  intros Hc V1 V2 H.
  pose proof (clamp_mul_nonneg_float mc ec q2 Hc V2) as N2.
  rewrite (clamp_mul_cases mc ec q1 Hc V1).
  destruct q1 as [[|]|[|]| |[|] m1 e1];
    try (apply is_nonneg_ge_zero, nonneg_float_is_nonneg; exact N2);
    try discriminate H.
  - destruct q2 as [[|]|[|]| |[|] m2 e2]; try discriminate H. reflexivity.
  - rewrite (clamp_mul_cases mc ec q2 Hc V2).
    destruct q2 as [[|]|[|]| |[|] m2 e2]; try discriminate H.
    + apply is_nonneg_le_inf, nonneg_float_is_nonneg, mul_pos_nonneg_float; assumption.
    + apply mul_pos_mono; assumption.
Qed.

(** A negative argument is clamped to zero, canonical or not. *)
Lemma clamp_mul_negative (mc : positive) (ec : Z) (q : spec_float) :
  SFltb q (S754_zero false) = true ->
  Max (F32.mul q (S754_finite false mc ec)) F32.of_int_0 = S754_zero false.
Proof.
  intros H. destruct q as [[|]|[|]| |[|] m e]; try discriminate H; try reflexivity.
  unfold F32.mul, SFmul, Max. cbn [xorb].
  rewrite binary_round_aux_negative. reflexivity.
Qed.

(** Whatever the argument, the clamped product is not negative. *)
Lemma clamp_is_nonneg (x : spec_float) : is_nonneg (Max x F32.of_int_0) = true.
Proof.
  unfold Max, F32.gt. destruct x as [[|]|[|]| |[|] m e]; reflexivity.
Qed.

Lemma sqrtf_nonneg_mono (x y : spec_float) :
  nonneg_float x = true -> nonneg_float y = true ->
  SFleb x y = true ->
  SFleb (F32.sqrtf x) (F32.sqrtf y) = true.
Proof.
  intros Nx Ny H.
  pose proof (sqrtf_is_nonneg y (nonneg_float_is_nonneg y Ny)) as Sy.
  destruct x as [[|]|[|]| |[|] m1 e1]; try discriminate Nx.
  - apply is_nonneg_ge_zero. exact Sy.
  - destruct y as [[|]|[|]| |[|] m2 e2]; try discriminate Ny; try discriminate H.
    reflexivity.
  - destruct y as [[|]|[|]| |[|] m2 e2]; try discriminate Ny; try discriminate H.
    + apply is_nonneg_le_inf, sqrtf_is_nonneg. reflexivity.
    + apply sqrtf_pos_mono; assumption.
Qed.

(** *** Equivalent airspeed *)

(** C8: whatever the dynamic pressure, the argument of the square root
    is not negative and the equivalent airspeed is at least zero; for a
    negative dynamic pressure it is zero; and it is monotone: [q1 <= q2]
    implies [eas q1 <= eas q2].  The constant [2 / rho_0] is a positive
    finite number, and [q1], [q2] are binary32 numbers. *)
Theorem eas_from_dynamic_pressure_clamped_monotone (q q1 q2 : float) :
  positive_finite two_div_rho_0 = true ->
  F32.valid q1 = true -> F32.valid q2 = true ->
  is_nonneg (Max (F32.mul q two_div_rho_0) F32.of_int_0) = true
  /\ F32.le F32.zero (eas_from_dynamic_pressure q) = true
  /\ (F32.lt q F32.zero = true -> eas_from_dynamic_pressure q = F32.zero)
  /\ (F32.le q1 q2 = true ->
      F32.le (eas_from_dynamic_pressure q1) (eas_from_dynamic_pressure q2) = true).
Proof.
  unfold eas_from_dynamic_pressure, F32.le, F32.lt, F32.zero.
  intros Hc V1 V2.
  destruct two_div_rho_0 as [[|]|[|]| |[|] mc ec]; try discriminate Hc.
  cbn [positive_finite] in Hc.
  split; [apply clamp_is_nonneg|].
  split; [apply is_nonneg_ge_zero, sqrtf_is_nonneg, clamp_is_nonneg|].
  split.
  - intros Hq. rewrite clamp_mul_negative by exact Hq. reflexivity.
  - intros Hle. apply sqrtf_nonneg_mono.
    + apply clamp_mul_nonneg_float; assumption.
    + apply clamp_mul_nonneg_float; assumption.
    + apply clamp_mul_mono; assumption.
Qed.

(** ** Further properties of the state machine *)

Lemma none_of_cons (f : action -> bool) (a : action) (l : list action) :
  none_of f (a :: l) = true -> f a = false /\ none_of f l = true.
Proof.
  unfold none_of. cbn [forallb]. intros H. apply andb_prop in H.
  destruct H as [H1 H2]. apply negb_true_iff in H1. split; assumption.
Qed.

Lemma count_actions_cons (f : action -> bool) (a : action) (l : list action) :
  count_actions f (a :: l)
  = ((if f a then 1 else 0) + count_actions f l)%nat.
Proof. unfold count_actions. cbn [filter]. destruct (f a); reflexivity. Qed.

(** *** Who writes what *)

Lemma step_config_frame (a : action) (w : World) :
  calc_airspeed (air_data (step a w)) = calc_airspeed (air_data w)
  /\ calc_tas_factor (air_data (step a w)) = calc_tas_factor (air_data w)
  /\ calc_amsl_baro (air_data (step a w)) = calc_amsl_baro (air_data w)
  /\ abi_queues (step a w) = abi_queues w.
Proof. step_cases a w; repeat split. Qed.

Lemma run_config_frame (l : list action) (w : World) :
  calc_airspeed (air_data (run l w)) = calc_airspeed (air_data w)
  /\ calc_tas_factor (air_data (run l w)) = calc_tas_factor (air_data w)
  /\ calc_amsl_baro (air_data (run l w)) = calc_amsl_baro (air_data w)
  /\ abi_queues (run l w) = abi_queues w.
Proof.
  apply run_ind.
  - repeat split.
  - intros a u (H1 & H2 & H3 & H4).
    destruct (step_config_frame a u) as (F1 & F2 & F3 & F4).
    repeat split; congruence.
Qed.

(** X1: no callback, tick, QNH setting or position update ever changes
    the three configuration switches or the bound events: in every state
    reached from initialisation they are as [air_data_init] set them
    from the configuration. *)
Theorem configuration_is_fixed_after_init (cfg : Config) (st : State) (l : list action) :
  let w := run l (air_data_init cfg (boot st)) in
  calc_airspeed (air_data w) = AIR_DATA_CALC_AIRSPEED cfg
  /\ calc_tas_factor (air_data w) = AIR_DATA_CALC_TAS_FACTOR cfg
  /\ calc_amsl_baro (air_data w) = AIR_DATA_CALC_AMSL_BARO cfg
  /\ abi_queues w = abi_queues (air_data_init cfg (boot st)).
Proof.
  cbv zeta.
  destruct (run_config_frame l (air_data_init cfg (boot st))) as (H1 & H2 & H3 & H4).
  rewrite H1, H2, H3, H4, init_world. repeat split.
Qed.

Lemma step_sensor_frame (a : action) (w : World) :
  (is_pressure_abs a = false -> pressure (air_data (step a w)) = pressure (air_data w))
  /\ (is_pressure_diff a = false ->
      differential (air_data (step a w)) = differential (air_data w)
      /\ airspeed (air_data (step a w)) = airspeed (air_data w)
      /\ airspeed_pushes (step a w) = airspeed_pushes w)
  /\ (is_temperature a = false ->
      temperature (air_data (step a w)) = temperature (air_data w)
      /\ tas_factor (air_data (step a w)) = tas_factor (air_data w)).
Proof.
  unfold airspeed_pushes.
  step_cases a w; repeat split; intros; try discriminate; repeat split.
Qed.

Lemma run_sensor_frame (l : list action) (w : World) :
  (none_of is_pressure_abs l = true ->
   pressure (air_data (run l w)) = pressure (air_data w))
  /\ (none_of is_pressure_diff l = true ->
      differential (air_data (run l w)) = differential (air_data w)
      /\ airspeed (air_data (run l w)) = airspeed (air_data w)
      /\ airspeed_pushes (run l w) = airspeed_pushes w)
  /\ (none_of is_temperature l = true ->
      temperature (air_data (run l w)) = temperature (air_data w)
      /\ tas_factor (air_data (run l w)) = tas_factor (air_data w)).
Proof.
  revert w. induction l as [|a l IH]; intros w.
  - repeat split.
  - rewrite run_cons. destruct (IH (step a w)) as (I1 & I2 & I3).
    destruct (step_sensor_frame a w) as (S1 & S2 & S3).
    split; [|split]; intros H; apply none_of_cons in H; destruct H as [Ha Hl].
    + rewrite (I1 Hl). apply S1, Ha.
    + destruct (I2 Hl) as (A & B & C). destruct (S2 Ha) as (A' & B' & C').
      repeat split; congruence.
    + destruct (I3 Hl) as (A & B). destruct (S3 Ha) as (A' & B').
      split; congruence.
Qed.


(** *** The watchdog among other actions *)

Lemma step_watchdog_no_abs (a : action) (w : World) :
  is_pressure_abs a = false ->
  baro_health_counter (step a w)
  = (if is_periodic a && (0 <? baro_health_counter w)
     then uint8_dec (baro_health_counter w) else baro_health_counter w)
  /\ amsl_baro_valid (air_data (step a w))
     = (if is_periodic a && negb (0 <? baro_health_counter w)
        then false else amsl_baro_valid (air_data w))
  /\ amsl_baro (air_data (step a w)) = amsl_baro (air_data w).
Proof.
  intros Ha. destruct a; try discriminate Ha; destruct_world w; eval_ops;
    cbn [is_periodic]; case_guards; repeat split.
Qed.

(** Without absolute-pressure samples the counter only goes down, by
    one per tick, and the altitude can only stay valid while ticks are
    left. *)
Lemma run_watchdog_no_abs (l : list action) (w : World) :
  none_of is_pressure_abs l = true ->
  0 <= baro_health_counter w <= 10 ->
  baro_health_counter (run l w)
  = Z.max 0 (baro_health_counter w - Z.of_nat (count_actions is_periodic l))
  /\ (amsl_baro_valid (air_data (run l w)) = true ->
      amsl_baro_valid (air_data w) = true
      /\ Z.of_nat (count_actions is_periodic l) <= baro_health_counter w)
  /\ (Z.of_nat (count_actions is_periodic l) <= baro_health_counter w ->
      amsl_baro_valid (air_data (run l w)) = amsl_baro_valid (air_data w))
  /\ amsl_baro (air_data (run l w)) = amsl_baro (air_data w).
Proof.
  revert w. induction l as [|a l IH]; intros w Hn Hc.
  - unfold count_actions. cbn [filter length run fold_left].
    repeat split; try lia; auto.
  - apply none_of_cons in Hn. destruct Hn as [Ha Hl].
    rewrite run_cons, count_actions_cons.
    destruct (step_watchdog_no_abs a w Ha) as (Sc & Sv & Sa).
    destruct (is_periodic a); cbn [andb] in Sc, Sv.
    + destruct (Z.ltb_spec 0 (baro_health_counter w)) as [Hpos|Hzero];
        cbn [negb] in Sv.
      * rewrite uint8_dec_small in Sc by lia.
        destruct (IH (step a w) Hl ltac:(lia)) as (Ic & Iv & Ik & Ia).
        rewrite Ic, Sc, Ia, Sa. split; [lia|]. split; [|split; [|reflexivity]].
        -- intros H. destruct (Iv H) as [H1 H2]. split; [congruence | lia].
        -- intros H. rewrite Ik by lia. exact Sv.
      * destruct (IH (step a w) Hl ltac:(lia)) as (Ic & Iv & Ik & Ia).
        rewrite Ic, Sc, Ia, Sa. split; [lia|]. split; [|split; [|reflexivity]].
        -- intros H. destruct (Iv H) as [H1 H2]. congruence.
        -- intros H. lia.
    + destruct (IH (step a w) Hl ltac:(lia)) as (Ic & Iv & Ik & Ia).
      rewrite Ic, Sc, Ia, Sa. cbn [Nat.add].
      split; [reflexivity|]. split; [|split; [|reflexivity]].
      * intros H. destruct (Iv H) as [H1 H2]. split; [congruence | lia].
      * intros H. rewrite Ik by lia. exact Sv.
Qed.

(** X3: only absolute-pressure samples feed the watchdog.  From any
    reachable state, an execution without such samples that contains 11
    watchdog ticks or more, interleaved with anything else, ends with
    [amsl_baro_valid] false, and the accessor returns the altitude of
    the state store. *)
Theorem watchdog_expires_without_pressure_samples
  (cfg : Config) (st : State) (w : World) (l : list action) :
  reachable cfg st w ->
  none_of is_pressure_abs l = true ->
  (11 <= count_actions is_periodic l)%nat ->
  amsl_baro_valid (air_data (run l w)) = false
  /\ baro_health_counter (run l w) = 0
  /\ air_data_get_amsl (run l w) = lla_alt (state (run l w)).
Proof.
  intros Hr Hn Hk.
  destruct (baro_inv_reachable cfg st w Hr) as [_ Hc].
  destruct (run_watchdog_no_abs l w Hn Hc) as (Rc & Rv & _).
  assert (Hv : amsl_baro_valid (air_data (run l w)) = false).
  { destruct (amsl_baro_valid (air_data (run l w))); [|reflexivity].
    destruct (Rv eq_refl) as [_ H]. lia. }
  split; [exact Hv|]. split; [lia|].
  unfold air_data_get_amsl. rewrite Hv. reflexivity.
Qed.

(** X4: the accessor holds the last barometric altitude while the
    watchdog allows it.  After an absolute-pressure sample that made the
    altitude valid, over any execution without a new sample
    [air_data_get_amsl] keeps returning that altitude as long as at most
    10 ticks have passed, whatever else happens in between. *)
Theorem accessor_holds_altitude_for_ten_ticks
  (sender_id : Z) (p : float) (w : World) (l : list action) :
  let w1 := pressure_abs_cb sender_id p w in
  amsl_baro_valid (air_data w1) = true ->
  none_of is_pressure_abs l = true ->
  (count_actions is_periodic l <= 10)%nat ->
  amsl_baro_valid (air_data (run l w1)) = true
  /\ air_data_get_amsl (run l w1) = amsl_baro (air_data w1).
Proof.
  intros w1 Hv Hn Hk.
  destruct (pressure_abs_cb_fields sender_id p w) as (_ & _ & _ & _ & Hc & _).
  fold w1 in Hc.
  destruct (run_watchdog_no_abs l w1 Hn ltac:(lia)) as (_ & _ & Rk & Ra).
  assert (Hv' : amsl_baro_valid (air_data (run l w1)) = true).
  { rewrite Rk by lia. exact Hv. }
  split; [exact Hv'|].
  unfold air_data_get_amsl. rewrite Hv'. exact Ra.
Qed.

(** *** QNH *)

Lemma step_qnh_unknown (a : action) (w : World) :
  is_set_qnh a = false -> is_valid_position a = false ->
  qnh_set w = false /\ calc_qnh_once (air_data w) = true
  /\ amsl_baro_valid (air_data w) = false
  /\ stateIsGlobalCoordinateValid w = false ->
  (qnh_set (step a w) = false /\ calc_qnh_once (air_data (step a w)) = true
   /\ amsl_baro_valid (air_data (step a w)) = false
   /\ stateIsGlobalCoordinateValid (step a w) = false)
  /\ qnh (air_data (step a w)) = qnh (air_data w)
  /\ auto_captures (step a w) = auto_captures w.
Proof.
  intros Hq Hp (H1 & H2 & H3 & H4). destruct_world w.
  destruct a as [| | | | |[|] alt]; try discriminate Hq; try discriminate Hp;
    eval_ops; subst; case_guards; repeat split.
Qed.

(** X5: without a valid position fix and without [air_data_SetQNH] the
    QNH stays unknown.  After initialisation with no fix, whatever
    samples and ticks arrive, [qnh] is never written, [calc_qnh_once]
    stays armed, [amsl_baro_valid] stays false (even with the AMSL
    computation enabled) and the accessor returns the altitude of the
    state store. *)
Theorem qnh_stays_unknown_without_fix (cfg : Config) (st : State) (l : list action) :
  global_coordinate_valid st = false ->
  none_of is_set_qnh l = true ->
  none_of is_valid_position l = true ->
  let w := run l (air_data_init cfg (boot st)) in
  qnh_set w = false
  /\ calc_qnh_once (air_data w) = true
  /\ amsl_baro_valid (air_data w) = false
  /\ qnh (air_data w) = qnh (air_data (boot st))
  /\ auto_captures w = 0%nat
  /\ air_data_get_amsl w = lla_alt (state w).
Proof.
  intros Hfix Hq Hp. cbv zeta.
  assert (G : forall l w,
             none_of is_set_qnh l = true -> none_of is_valid_position l = true ->
             qnh_set w = false /\ calc_qnh_once (air_data w) = true
             /\ amsl_baro_valid (air_data w) = false
             /\ stateIsGlobalCoordinateValid w = false ->
             (qnh_set (run l w) = false /\ calc_qnh_once (air_data (run l w)) = true
              /\ amsl_baro_valid (air_data (run l w)) = false
              /\ stateIsGlobalCoordinateValid (run l w) = false)
             /\ qnh (air_data (run l w)) = qnh (air_data w)
             /\ auto_captures (run l w) = auto_captures w).
  { clear. induction l as [|a l IH]; intros w Hq Hp Hw.
    - repeat split; apply Hw.
    - apply none_of_cons in Hq. apply none_of_cons in Hp.
      destruct Hq as [Hqa Hql]. destruct Hp as [Hpa Hpl].
      destruct (step_qnh_unknown a w Hqa Hpa Hw) as (S1 & S2 & S3).
      rewrite run_cons. destruct (IH (step a w) Hql Hpl S1) as (I1 & I2 & I3).
      split; [exact I1|]. split; congruence. }
  destruct (G l (air_data_init cfg (boot st)) Hq Hp) as ((G1 & G2 & G3 & _) & G4 & G5).
  { rewrite init_world. repeat split. exact Hfix. }
  split; [exact G1|]. split; [exact G2|]. split; [exact G3|].
  split; [rewrite G4, init_world; reflexivity|].
  split; [rewrite G5, init_world; reflexivity|].
  unfold air_data_get_amsl. rewrite G3. reflexivity.
Qed.

(** X6: the altitude is computed with the QNH of the same callback.  If
    the AMSL computation is enabled and QNH is known or captured by this
    very sample, [pressure_abs_cb] makes the altitude valid and the
    accessor returns the ISA height of the sample for the QNH now stored
    (times 100); when the capture fires, that QNH is the one computed
    from this sample and the altitude of the state store. *)
Theorem pressure_abs_cb_altitude (sender_id : Z) (p : float) (w : World) :
  calc_amsl_baro (air_data w) = true ->
  qnh_set w = true
  \/ calc_qnh_once (air_data w) && stateIsGlobalCoordinateValid w = true ->
  let w' := pressure_abs_cb sender_id p w in
  amsl_baro_valid (air_data w') = true
  /\ air_data_get_amsl w'
     = pprz_isa_height_of_pressure_full p (F32.mul (qnh (air_data w')) F32.hundred)
  /\ qnh (air_data w')
     = (if calc_qnh_once (air_data w) && stateIsGlobalCoordinateValid w
        then F32.div (pprz_isa_ref_pressure_of_height_full p (stateGetPositionLla_f_alt w))
                     F32.hundred
        else qnh (air_data w)).
Proof.
  intros Hc Hq. destruct_world w. eval_ops. subst.
  destruct Hq as [Hq|Hq]; [subst|]; case_guards; try discriminate Hq; repeat split.
Qed.

Lemma step_qnh_after_capture (a : action) (w : World) :
  is_set_qnh a = false -> calc_qnh_once (air_data w) = false ->
  calc_qnh_once (air_data (step a w)) = false
  /\ qnh (air_data (step a w)) = qnh (air_data w)
  /\ qnh_set (step a w) = qnh_set w.
Proof.
  intros Hq Hc. destruct_world w.
  destruct a; try discriminate Hq; eval_ops; subst; case_guards; repeat split.
Qed.

(** X7: once the capture has fired, an externally set QNH stays.  If
    [calc_qnh_once] is false, [air_data_SetQNH q] followed by any
    execution without another [air_data_SetQNH] leaves [qnh] equal to
    [q]: no sample and no tick writes it. *)
Theorem SetQNH_persists_after_capture (q : float) (w : World) (l : list action) :
  calc_qnh_once (air_data w) = false ->
  none_of is_set_qnh l = true ->
  let w' := run l (air_data_SetQNH q w) in
  qnh (air_data w') = q /\ qnh_set w' = true /\ calc_qnh_once (air_data w') = false.
Proof.
  intros Hc Hn. cbv zeta.
  assert (G : forall l u,
             none_of is_set_qnh l = true -> calc_qnh_once (air_data u) = false ->
             calc_qnh_once (air_data (run l u)) = false
             /\ qnh (air_data (run l u)) = qnh (air_data u)
             /\ qnh_set (run l u) = qnh_set u).
  { clear. induction l as [|a l IH]; intros u Hn Hc.
    - repeat split. exact Hc.
    - apply none_of_cons in Hn. destruct Hn as [Ha Hl].
      destruct (step_qnh_after_capture a u Ha Hc) as (S1 & S2 & S3).
      rewrite run_cons. destruct (IH (step a u) Hl S1) as (I1 & I2 & I3).
      repeat split; congruence. }
  destruct (G l (air_data_SetQNH q w) Hn) as (G1 & G2 & G3).
  { destruct_world w. eval_ops. exact Hc. }
  split; [rewrite G2; reflexivity|]. split; [rewrite G3; reflexivity | exact G1].
Qed.

(** *** Airspeed *)



(** What a differential-pressure sample does.  With the airspeed
    computation enabled, [pressure_diff_cb] stores the sample and the
    true airspeed computed from it, and pushes exactly that airspeed to
    the state store; with the computation disabled it only stores the
    sample.  In both cases the absolute-pressure side (pressure, QNH,
    altitude, watchdog) and the position of the store are untouched. *)
Lemma pressure_diff_cb_effect (sender_id : Z) (q : float) (w : World) :
  let w' := pressure_diff_cb sender_id q w in
  let v := tas_from_dynamic_pressure w q in
  differential (air_data w') = q
  /\ (if calc_airspeed (air_data w)
      then airspeed (air_data w') = v
           /\ state_airspeed (state w') = v
           /\ history w' = SetAirspeed v :: history w
      else airspeed (air_data w') = airspeed (air_data w)
           /\ state_airspeed (state w') = state_airspeed (state w)
           /\ history w' = history w)
  /\ pressure (air_data w') = pressure (air_data w)
  /\ temperature (air_data w') = temperature (air_data w)
  /\ tas_factor (air_data w') = tas_factor (air_data w)
  /\ qnh (air_data w') = qnh (air_data w)
  /\ qnh_set w' = qnh_set w
  /\ calc_qnh_once (air_data w') = calc_qnh_once (air_data w)
  /\ amsl_baro (air_data w') = amsl_baro (air_data w)
  /\ amsl_baro_valid (air_data w') = amsl_baro_valid (air_data w)
  /\ baro_health_counter w' = baro_health_counter w
  /\ global_coordinate_valid (state w') = global_coordinate_valid (state w)
  /\ lla_alt (state w') = lla_alt (state w).
Proof.
  destruct_world w. unfold tas_from_dynamic_pressure, tas_from_eas.
  eval_ops. case_guards; repeat split.
Qed.

(** *** Temperature and the TAS factor *)

Lemma temperature_cb_fields (sender_id : Z) (t : float) (w : World) :
  let w' := temperature_cb sender_id t w in
  temperature (air_data w') = t
  /\ tas_factor (air_data w')
     = (if calc_tas_factor (air_data w) && (0 <? baro_health_counter w)
        then get_tas_factor (pressure (air_data w)) t
        else tas_factor (air_data w)).
Proof. destruct_world w. eval_ops. case_guards; repeat split. Qed.

(** X9: a temperature sample uses the last absolute pressure while it
    is fresh.  After an absolute-pressure sample [p] and any actions
    without a new one that contain fewer than 10 ticks, a temperature
    sample [t] sets the TAS factor to [get_tas_factor p t], if that
    computation is enabled. *)
Theorem temperature_uses_fresh_pressure
  (id1 id2 : Z) (p t : float) (w : World) (l : list action) :
  calc_tas_factor (air_data w) = true ->
  none_of is_pressure_abs l = true ->
  (count_actions is_periodic l < 10)%nat ->
  let w1 := run l (pressure_abs_cb id1 p w) in
  tas_factor (air_data (temperature_cb id2 t w1)) = get_tas_factor p t
  /\ temperature (air_data (temperature_cb id2 t w1)) = t.
Proof.
  intros Hc Hn Hk w1.
  destruct (temperature_cb_fields id2 t w1) as [Ht Hf].
  split; [|exact Ht]. rewrite Hf.
  destruct (pressure_abs_cb_fields id1 p w) as (_ & _ & _ & _ & Hcnt & _).
  destruct (run_watchdog_no_abs l (pressure_abs_cb id1 p w) Hn ltac:(lia)) as (Rc & _).
  destruct (run_sensor_frame l (pressure_abs_cb id1 p w)) as (Rp & _).
  destruct (run_config_frame l (pressure_abs_cb id1 p w)) as (_ & Rt & _).
  fold w1 in Rc, Rp, Rt.
  rewrite Rt, (Rp Hn).
  assert (E1 : calc_tas_factor (air_data (pressure_abs_cb id1 p w)) = true).
  { destruct (step_config_frame (APressureAbs id1 p) w) as (_ & F & _).
    cbn [step] in F. rewrite F. exact Hc. }
  assert (E2 : pressure (air_data (pressure_abs_cb id1 p w)) = p).
  { destruct_world w. eval_ops. case_guards; reflexivity. }
  rewrite E1, E2.
  destruct (Z.ltb_spec 0 (baro_health_counter w1)); [reflexivity | lia].
Qed.

(** X10: once the pressure is stale the TAS factor is held.  From any
    reachable state, after 10 ticks or more without an absolute-pressure
    sample, a temperature sample stores the temperature and leaves
    [tas_factor] as it is, whatever the configuration. *)
Theorem temperature_holds_tas_factor_when_stale
  (cfg : Config) (st : State) (w : World) (l : list action) (sender_id : Z) (t : float) :
  reachable cfg st w ->
  none_of is_pressure_abs l = true ->
  (10 <= count_actions is_periodic l)%nat ->
  tas_factor (air_data (temperature_cb sender_id t (run l w)))
  = tas_factor (air_data (run l w))
  /\ temperature (air_data (temperature_cb sender_id t (run l w))) = t.
Proof.
  intros Hr Hn Hk.
  destruct (baro_inv_reachable cfg st w Hr) as [_ Hc].
  destruct (run_watchdog_no_abs l w Hn Hc) as (Rc & _).
  destruct (temperature_cb_fields sender_id t (run l w)) as [Ht Hf].
  split; [|exact Ht]. rewrite Hf.
  replace (0 <? baro_health_counter (run l w)) with false.
  - rewrite andb_false_r. reflexivity.
  - symmetry. apply Z.ltb_ge. lia.
Qed.

(** *** Initialisation on any memory *)

Lemma capture_count_step (a : action) (w : World) :
  (auto_captures (step a w)
   <= auto_captures w + (if calc_qnh_once (air_data w) then 1 else 0))%nat
  /\ (calc_qnh_once (air_data w) = true ->
      calc_qnh_once (air_data (step a w)) = true ->
      auto_captures (step a w) = auto_captures w).
Proof. step_cases a w; split; intros; try discriminate; lia. Qed.

(** X11: the invariants do not rely on zero-initialised memory.  On any
    memory, [air_data_init] followed by any execution gives a state where
    a valid altitude implies a known QNH and an enabled computation, the
    counter is between 0 and 10, and the capture branch has stored [qnh]
    at most once more than before the initialisation; right after it the
    altitude is invalid, QNH unknown and the capture armed, while the
    sensor values, the state store and the history are untouched. *)
Theorem air_data_init_establishes_invariants (cfg : Config) (w0 : World) (l : list action) :
  let w1 := air_data_init cfg w0 in
  let w := run l w1 in
  baro_inv w
  /\ (auto_captures w <= auto_captures w0 + 1)%nat
  /\ amsl_baro_valid (air_data w1) = false
  /\ qnh_set w1 = false
  /\ calc_qnh_once (air_data w1) = true
  /\ baro_health_counter w1 = 0
  /\ tas_factor (air_data w1) = AIR_DATA_TAS_FACTOR cfg
  /\ pressure (air_data w1) = pressure (air_data w0)
  /\ differential (air_data w1) = differential (air_data w0)
  /\ temperature (air_data w1) = temperature (air_data w0)
  /\ airspeed (air_data w1) = airspeed (air_data w0)
  /\ qnh (air_data w1) = qnh (air_data w0)
  /\ amsl_baro (air_data w1) = amsl_baro (air_data w0)
  /\ state w1 = state w0
  /\ history w1 = history w0.
Proof.
  cbv zeta. split; [|split].
  - apply run_ind; [|apply baro_inv_step].
    destruct_world w0. unfold baro_inv. eval_ops. split; [discriminate | lia].
  - assert (G : (auto_captures (run l (air_data_init cfg w0))
                 <= auto_captures w0
                    + (if calc_qnh_once (air_data (run l (air_data_init cfg w0)))
                       then 0 else 1))%nat).
    { apply run_ind.
      - destruct_world w0. eval_ops. lia.
      - intros a u Hu. destruct (capture_count_step a u) as [S1 S2].
        destruct (calc_qnh_once (air_data u)) eqn:Eu.
        + destruct (calc_qnh_once (air_data (step a u))) eqn:Es.
          * rewrite (S2 eq_refl eq_refl). exact Hu.
          * lia.
        + rewrite (calc_qnh_once_stays_false a u Eu). lia. }
    destruct (calc_qnh_once (air_data (run l (air_data_init cfg w0)))); lia.
  - destruct_world w0. eval_ops. repeat split.
Qed.

(** ** Further properties of the airspeed conversions *)

Lemma F32_mul_comm (x y : spec_float) : F32.mul x y = F32.mul y x.
Proof.
  unfold F32.mul, SFmul.
  destruct x as [[|]|[|]| |sx mx ex]; destruct y as [[|]|[|]| |sy my ey];
    try reflexivity; try (destruct sx; reflexivity); try (destruct sy; reflexivity).
  rewrite xorb_comm, Pos.mul_comm, Z.add_comm. reflexivity.
Qed.

(** Rounding a canonical number gives it back. *)
Lemma round_key_exact (s : bool) (m : positive) (e : Z) :
  bounded F32.prec F32.emax m e = true ->
  round_key s (4 * Z.pos m) e = S754_finite s m e.
Proof.
  intros B. destruct (bounded_inv m e B) as (He & Hd & Hn).
  destruct (canonical_range m e B) as [Hm _].
  assert (Q : 4 * Z.pos m / 4 = Z.pos m) by euclid.
  assert (T : target (Z.pos m) e = e) by (rewrite target_eq; lia).
  unfold round_key. rewrite Q, T, Z.sub_diag.
  change (sticky_shift (Z.to_nat 0) (4 * Z.pos m)) with (4 * Z.pos m).
  assert (R : rne_key (4 * Z.pos m) = Z.pos m).
  { unfold rne_key. rewrite Q.
    replace ((4 * Z.pos m) mod 4) with 0 by euclid. reflexivity. }
  rewrite R. unfold finish.
  destruct (Z.eqb_spec (Z.pos m) 0); [lia|].
  destruct (Z.eqb_spec (Z.pos m) 16777216); [lia|].
  destruct (Z.leb_spec e 104); [reflexivity | lia].
Qed.

(** Multiplying by [1.0f] changes nothing. *)
Lemma mul_one_l (x : spec_float) :
  F32.valid x = true -> F32.mul F32.one x = x.
Proof.
  intros V. rewrite F32_mul_comm.
  destruct x as [[|]|[|]| |s m e]; try reflexivity.
  assert (B1 : bounded F32.prec F32.emax 8388608 (-23) = true) by reflexivity.
  unfold F32.one. rewrite mul_finite_key by assumption.
  replace (4 * (Z.pos m * 8388608)) with (4 * (Z.pos m * 2 ^ Z.of_nat 23)) by reflexivity.
  replace (e + -23) with (e - Z.of_nat 23) by reflexivity.
  rewrite round_key_rescale_exact.
  - apply round_key_exact. exact V.
  - lia.
  - destruct (bounded_inv m e V) as (He & Hd & Hn). rewrite target_eq. lia.
Qed.

Lemma sqrtf_nonneg_float (x : spec_float) :
  is_nonneg x = true -> nonneg_float (F32.sqrtf x) = true.
Proof.
  destruct x as [[|]|[|]| |[|] m e]; try discriminate; intros _; try reflexivity.
  rewrite sqrtf_finite_key. cbv zeta.
  assert (Hy : 0 <= Z.pos m * 2 ^ (e - 2 * sqrt_exp (Z.pos m) e)).
  { apply Z.mul_nonneg_nonneg; [lia | apply Z.pow_nonneg; lia]. }
  apply round_key_nonneg_float.
  - transitivity (sqrt_key 0); [vm_compute; discriminate | apply sqrt_key_mono; lia].
  - rewrite sqrt_key_div4 by exact Hy. apply sqrt_target.
Qed.

(** The equivalent airspeed is always a binary32 number that is neither
    negative nor NaN. *)
Lemma eas_nonneg_float (q : float) :
  nonneg_float (eas_from_dynamic_pressure q) = true.
Proof.
  unfold eas_from_dynamic_pressure. apply sqrtf_nonneg_float, clamp_is_nonneg.
Qed.

Lemma nonneg_float_valid (x : spec_float) :
  nonneg_float x = true -> F32.valid x = true.
Proof. destruct x as [[|]|[|]| |[|] m e]; try discriminate; auto. Qed.

(** X12: with a TAS factor of [1.0f] the true airspeed is the equivalent
    airspeed, bit for bit, for every dynamic pressure; this is the case
    after initialisation with the default configuration until the first
    temperature sample, so a differential-pressure sample then stores
    and pushes [eas_from_dynamic_pressure] of its value. *)
Theorem default_tas_factor_gives_eas
  (st : State) (l : list action) (sender_id : Z) (q : float) :
  none_of is_temperature l = true ->
  let w := run l (air_data_init default_config (boot st)) in
  let w' := pressure_diff_cb sender_id q w in
  tas_factor (air_data w) = F32.one
  /\ tas_from_dynamic_pressure w q = eas_from_dynamic_pressure q
  /\ airspeed (air_data w') = eas_from_dynamic_pressure q
  /\ state_airspeed (state w') = eas_from_dynamic_pressure q.
Proof.
  intros Hn w w'.
  destruct (run_sensor_frame l (air_data_init default_config (boot st))) as (_ & _ & Rt).
  destruct (Rt Hn) as [_ Hf]. fold w in Hf. rewrite init_world in Hf. cbn in Hf.
  destruct (run_config_frame l (air_data_init default_config (boot st))) as (Hc & _).
  fold w in Hc. rewrite init_world in Hc. cbn in Hc.
  assert (E : tas_from_dynamic_pressure w q = eas_from_dynamic_pressure q).
  { unfold tas_from_dynamic_pressure, tas_from_eas. rewrite Hf.
    apply mul_one_l, nonneg_float_valid, eas_nonneg_float. }
  split; [exact Hf|]. split; [exact E|].
  subst w'. revert Hc E. generalize w. clear. intros w Hc E.
  destruct_world w. unfold tas_from_dynamic_pressure, tas_from_eas in *.
  eval_ops. subst. eval_ops. split; exact E.
Qed.

Lemma mul_pos_l_nonneg_float (mc : positive) (ec : Z) (x : spec_float) :
  bounded F32.prec F32.emax mc ec = true ->
  nonneg_float x = true ->
  nonneg_float (F32.mul (S754_finite false mc ec) x) = true.
Proof.
  intros Bc Nx. rewrite F32_mul_comm.
  destruct x as [[|]|[|]| |[|] m e]; try discriminate Nx; try reflexivity.
  apply mul_pos_nonneg_float; assumption.
Qed.

(** Multiplication by a positive finite number keeps the order of
    numbers that are not negative. *)
Lemma mul_pos_l_mono (mc : positive) (ec : Z) (x y : spec_float) :
  bounded F32.prec F32.emax mc ec = true ->
  nonneg_float x = true -> nonneg_float y = true ->
  SFleb x y = true ->
  SFleb (F32.mul (S754_finite false mc ec) x) (F32.mul (S754_finite false mc ec) y) = true.
Proof.
  intros Bc Nx Ny H.
  pose proof (mul_pos_l_nonneg_float mc ec y Bc Ny) as My.
  destruct x as [[|]|[|]| |[|] m1 e1]; try discriminate Nx.
  - apply is_nonneg_ge_zero, nonneg_float_is_nonneg. exact My.
  - destruct y as [[|]|[|]| |[|] m2 e2]; try discriminate Ny; try discriminate H.
    reflexivity.
  - destruct y as [[|]|[|]| |[|] m2 e2]; try discriminate Ny; try discriminate H.
    + apply is_nonneg_le_inf, nonneg_float_is_nonneg, mul_pos_l_nonneg_float; assumption.
    + rewrite (F32_mul_comm _ (S754_finite false m1 e1)).
      rewrite (F32_mul_comm _ (S754_finite false m2 e2)).
      apply mul_pos_mono; assumption.
Qed.

(** X13: with a positive finite TAS factor, true airspeed from dynamic
    pressure is at least zero and monotone: [q1 <= q2] implies
    [tas q1 <= tas q2] (the constant [2 / rho_0] being positive and
    finite, and [q1], [q2] binary32 numbers). *)
Theorem tas_from_dynamic_pressure_monotone (w : World) (q q1 q2 : float) :
  positive_finite two_div_rho_0 = true ->
  positive_finite (tas_factor (air_data w)) = true ->
  F32.valid q1 = true -> F32.valid q2 = true ->
  F32.le F32.zero (tas_from_dynamic_pressure w q) = true
  /\ (F32.le q1 q2 = true ->
      F32.le (tas_from_dynamic_pressure w q1) (tas_from_dynamic_pressure w q2) = true).
Proof.
  intros Hc Hf V1 V2. unfold tas_from_dynamic_pressure, tas_from_eas, F32.le, F32.zero.
  destruct (tas_factor (air_data w)) as [[|]|[|]| |[|] mf ef]; try discriminate Hf.
  cbn [positive_finite] in Hf.
  split.
  - apply is_nonneg_ge_zero, nonneg_float_is_nonneg, mul_pos_l_nonneg_float;
      [exact Hf | apply eas_nonneg_float].
  - intros Hle. apply mul_pos_l_mono; try apply eas_nonneg_float; try exact Hf.
    unfold eas_from_dynamic_pressure.
    destruct two_div_rho_0 as [[|]|[|]| |[|] mc ec]; try discriminate Hc.
    cbn [positive_finite] in Hc.
    apply sqrtf_nonneg_mono.
    + apply clamp_mul_nonneg_float; assumption.
    + apply clamp_mul_nonneg_float; assumption.
    + apply clamp_mul_mono; assumption.
Qed.

(** *** Negative airspeeds *)

Lemma lt_zero_not_negative (x : spec_float) :
  F32.lt x F32.zero = negb (not_negative x).
Proof. destruct x as [[|]|[|]| |[|] m e]; reflexivity. Qed.

Lemma is_nonneg_not_negative (x : spec_float) :
  is_nonneg x = true -> not_negative x = true.
Proof. destruct x as [[|]|[|]| |[|] m e]; try discriminate; reflexivity. Qed.

(** A rounded result with the sign bit clear is never negative. *)
Lemma binary_round_aux_not_negative (m e : Z) (l : location) :
  not_negative (binary_round_aux F32.prec F32.emax false m e l) = true.
Proof.
  unfold binary_round_aux.
  destruct (shr_fexp F32.prec F32.emax m e l) as [mrs' e'].
  destruct (shr_fexp F32.prec F32.emax _ e' loc_Exact) as [mrs'' e''].
  destruct (shr_m mrs''); [reflexivity| |reflexivity].
  destruct (e'' <=? F32.emax - F32.prec); reflexivity.
Qed.

Lemma sqrtf_not_negative (x : spec_float) : not_negative (F32.sqrtf x) = true.
Proof.
  destruct x as [[|]|[|]| |[|] m e]; try reflexivity.
  apply is_nonneg_not_negative, sqrtf_is_nonneg. reflexivity.
Qed.

Lemma mul_not_negative (f x : spec_float) :
  not_negative f = true -> is_nonneg x = true -> not_negative (F32.mul f x) = true.
Proof.
  intros Hf Hx.
  destruct f as [[|]|[|]| |[|] mf ef]; try discriminate Hf;
    destruct x as [[|]|[|]| |[|] m e]; try discriminate Hx; try reflexivity.
  unfold F32.mul, SFmul. cbn [xorb]. apply binary_round_aux_not_negative.
Qed.

Lemma step_not_negative (a : action) (w : World) :
  not_negative (tas_factor (air_data w)) = true
  /\ not_negative (airspeed (air_data w)) = true
  /\ (forall v, In (SetAirspeed v) (history w) -> not_negative v = true) ->
  not_negative (tas_factor (air_data (step a w))) = true
  /\ not_negative (airspeed (air_data (step a w))) = true
  /\ (forall v, In (SetAirspeed v) (history (step a w)) -> not_negative v = true).
Proof.
  intros (Hf & Ha & Hh). destruct_world w.
  destruct a as [id p|id q|id t| |q|v alt]; eval_stores;
    repeat match goal with
           | |- context [if ?b then _ else _] => destruct b eqn:?; eval_stores
           end;
    repeat split; try assumption; try apply sqrtf_not_negative;
    try (intros v0 [E|Hin]; [discriminate E | apply Hh; exact Hin]).
  - apply mul_not_negative; [assumption|].
    apply nonneg_float_is_nonneg, eas_nonneg_float.
  - intros v0 [E|Hin]; [|apply Hh; exact Hin].
    injection E as <-. apply mul_not_negative; [assumption|].
    apply nonneg_float_is_nonneg, eas_nonneg_float.
Qed.

(** X14: no flying backwards.  If the configured TAS factor is not
    below zero, then in every state reached from initialisation neither
    the TAS factor nor [air_data.airspeed] compares below zero, and no
    airspeed ever pushed to the state store does, whatever the samples
    (negative, infinite or NaN pressures and temperatures included). *)
Theorem airspeed_is_never_negative (cfg : Config) (st : State) (l : list action) :
  F32.lt (AIR_DATA_TAS_FACTOR cfg) F32.zero = false ->
  let w := run l (air_data_init cfg (boot st)) in
  F32.lt (tas_factor (air_data w)) F32.zero = false
  /\ F32.lt (airspeed (air_data w)) F32.zero = false
  /\ (forall v, In (SetAirspeed v) (history w) -> F32.lt v F32.zero = false).
Proof.
  intros Hcfg. cbv zeta.
  rewrite lt_zero_not_negative in Hcfg. apply negb_false_iff in Hcfg.
  assert (G : not_negative (tas_factor (air_data (run l (air_data_init cfg (boot st))))) = true
              /\ not_negative (airspeed (air_data (run l (air_data_init cfg (boot st))))) = true
              /\ (forall v, In (SetAirspeed v) (history (run l (air_data_init cfg (boot st)))) ->
                            not_negative v = true)).
  { apply run_ind; [|apply step_not_negative].
    rewrite init_world. cbn. split; [exact Hcfg|]. split; [reflexivity|]. intros v []. }
  destruct G as (G1 & G2 & G3).
  rewrite !lt_zero_not_negative, G1, G2. split; [reflexivity|]. split; [reflexivity|].
  intros v Hin. rewrite lt_zero_not_negative, (G3 v Hin). reflexivity.
Qed.

(** *** Special values *)

(** X15: what the equivalent airspeed does on special values.  Its
    result is always a canonical binary32 number that is neither NaN nor
    negative; a NaN dynamic pressure, like a zero of either sign, gives
    [+0] (the comparison of the clamp is false on NaN); and with a
    positive finite [2 / rho_0], plus infinity gives plus infinity and
    minus infinity gives [+0]. *)
Theorem eas_from_dynamic_pressure_special_values (q : float) (s : bool) :
  F32.valid (eas_from_dynamic_pressure q) = true
  /\ is_nonneg (eas_from_dynamic_pressure q) = true
  /\ eas_from_dynamic_pressure S754_nan = F32.zero
  /\ eas_from_dynamic_pressure (S754_zero s) = F32.zero
  /\ (positive_finite two_div_rho_0 = true ->
      eas_from_dynamic_pressure (S754_infinity false) = S754_infinity false
      /\ eas_from_dynamic_pressure (S754_infinity true) = F32.zero).
Proof.
  pose proof (eas_nonneg_float q) as N.
  split; [apply nonneg_float_valid; exact N|].
  split; [apply nonneg_float_is_nonneg; exact N|].
  unfold eas_from_dynamic_pressure.
  destruct two_div_rho_0 as [[|]|[|]| |[|] mc ec]; destruct s;
    (split; [reflexivity|]); (split; [reflexivity|]);
    intros Hp; try discriminate Hp; split; reflexivity.
Qed.

Lemma get_tas_factor_nan (p t : float) :
  get_tas_factor S754_nan t = S754_nan /\ get_tas_factor p S754_nan = S754_nan.
Proof.
  unfold get_tas_factor, F64.of_float, F64.add, F64.mul, F64.div, F64.to_float, F32.sqrtf.
  split.
  - cbn [SFmul]. destruct (SFmul F64.prec F64.emax _ _); reflexivity.
  - cbn [SFadd]. destruct PPRZ_ISA_SEA_LEVEL_PRESSURE; cbn [SFmul SFdiv]; reflexivity.
Qed.

(** X16: a NaN temperature or pressure poisons the airspeed.  A NaN
    pressure or temperature makes [get_tas_factor] NaN; so a NaN
    temperature sample taken while the pressure is fresh and the TAS
    factor computation enabled sets [tas_factor] to NaN, after which
    every true airspeed is NaN, whatever the dynamic pressure. *)
Theorem nan_temperature_poisons_airspeed
  (sender_id : Z) (p t q : float) (w : World) :
  calc_tas_factor (air_data w) = true ->
  0 < baro_health_counter w ->
  let w' := temperature_cb sender_id S754_nan w in
  get_tas_factor S754_nan t = S754_nan
  /\ get_tas_factor p S754_nan = S754_nan
  /\ tas_factor (air_data w') = S754_nan
  /\ tas_from_dynamic_pressure w' q = S754_nan.
Proof.
  intros Hc Hk w'.
  destruct (get_tas_factor_nan p t) as [N1 N2].
  destruct (get_tas_factor_nan (pressure (air_data w)) t) as [_ N3].
  destruct (temperature_cb_fields sender_id S754_nan w) as [_ Hf].
  fold w' in Hf. rewrite Hc in Hf.
  assert (E : (0 <? baro_health_counter w) = true) by (apply Z.ltb_lt; exact Hk).
  rewrite E, N3 in Hf. cbn [andb] in Hf.
  split; [exact N1|]. split; [exact N2|]. split; [exact Hf|].
  unfold tas_from_dynamic_pressure, tas_from_eas. rewrite Hf. reflexivity.
Qed.

End AirDataCode.

(** ** The code on concrete inputs *)

Local Abbreviation sample_run :=
  (run Sample.air_density Sample.sea_level_pressure Sample.sea_level_temp
     Sample.ref_pressure_of_height Sample.height_of_pressure).
Local Abbreviation sample_step :=
  (step Sample.air_density Sample.sea_level_pressure Sample.sea_level_temp
     Sample.ref_pressure_of_height Sample.height_of_pressure).
Local Abbreviation sample_reachable :=
  (reachable Sample.air_density Sample.sea_level_pressure Sample.sea_level_temp
     Sample.ref_pressure_of_height Sample.height_of_pressure).
Local Abbreviation sample_abs_cb :=
  (pressure_abs_cb Sample.ref_pressure_of_height Sample.height_of_pressure).
Local Abbreviation sample_trace :=
  (calc_qnh_once_trace Sample.air_density Sample.sea_level_pressure Sample.sea_level_temp
     Sample.ref_pressure_of_height Sample.height_of_pressure).
Local Abbreviation sample_valid_trace :=
  (amsl_baro_valid_trace Sample.air_density Sample.sea_level_pressure Sample.sea_level_temp
     Sample.ref_pressure_of_height Sample.height_of_pressure).
Local Abbreviation sample_init := (air_data_init Sample.cfg_amsl (boot Sample.fix_at_sea_level)).

Local Abbreviation sample_send :=
  (AbiSendMsg Sample.air_density Sample.sea_level_pressure Sample.sea_level_temp
     Sample.ref_pressure_of_height Sample.height_of_pressure Sample.broadcast).

Example two_div_rho_0_value :
  two_div_rho_0 Sample.air_density = S754_finite false 13695687 (-23).
Proof. vm_compute. reflexivity. Qed.

(** 647 Pa of dynamic pressure is about 32.5 m/s. *)
Example eas_of_647_Pa :
  eas_from_dynamic_pressure Sample.air_density Sample.p647
  = S754_finite false 8519989 (-18).
Proof. vm_compute. reflexivity. Qed.

Example eas_of_negative_and_nan :
  eas_from_dynamic_pressure Sample.air_density (S754_finite true 10600448 (-14)) = F32.zero
  /\ eas_from_dynamic_pressure Sample.air_density S754_nan = F32.zero
  /\ eas_from_dynamic_pressure Sample.air_density (S754_zero true) = F32.zero.
Proof. vm_compute. repeat split. Qed.

Example round_key_agrees :
  binary_round_aux F32.prec F32.emax false 33554431 (-160) (loc_Inexact Eq)
  = round_key false (key 33554431 (loc_Inexact Eq)) (-160)
  /\ round_key false (key 33554431 (loc_Inexact Eq)) (-160) = S754_finite false 16384 (-149).
Proof. vm_compute. split; reflexivity. Qed.

Example falls_and_rises :
  falls [true; true; false; false] = 1%nat
  /\ rises [true; true; false; false] = 0%nat
  /\ rises [false; true; false; true] = 2%nat
  /\ falls [false; true; false; true] = 1%nat.
Proof. repeat split. Qed.

(** After initialisation with the default filters, an absolute-pressure
    message runs both pressure callbacks: its value lands in
    [air_data.differential] too, and is pushed as an airspeed. *)
Example baro_abs_message_reaches_diff_cb :
  let w := sample_send ABI_BARO_ABS 7 Sample.p101325 sample_init in
  pressure (air_data w) = Sample.p101325
  /\ differential (air_data w) = Sample.p101325
  /\ (exists v, history w = [StoreQnh AutoCapture Sample.q1013_25; SetAirspeed v])
  /\ sample_send ABI_BARO_DIFF 7 Sample.p647 sample_init = sample_init.
Proof.
  cbv zeta. split; [vm_compute; reflexivity|]. split; [vm_compute; reflexivity|].
  split; [eexists; vm_compute; reflexivity | vm_compute; reflexivity].
Qed.

(** C2 as stated fails: after one absolute-pressure sample with a valid
    fix and ten watchdog ticks, [amsl_baro_valid] is still true while the
    counter is zero. *)
Lemma amsl_baro_valid_with_zero_counter :
  let w := sample_run (APressureAbs 0 Sample.p101325 :: repeat APeriodic 10) sample_init in
  sample_reachable Sample.cfg_amsl Sample.fix_at_sea_level w
  /\ amsl_baro_valid (air_data w) = true
  /\ ~ (qnh_set w = true /\ baro_health_counter w <> 0).
Proof.
  cbv zeta. split; [|split].
  - eexists. reflexivity.
  - vm_compute. reflexivity.
  - intros [_ H]. apply H. vm_compute. reflexivity.
Qed.

Lemma amsl_baro_valid_implies_qnh_set_witness :
  let w := sample_run (APressureAbs 0 Sample.p101325 :: repeat APeriodic 10) sample_init in
  sample_reachable Sample.cfg_amsl Sample.fix_at_sea_level w
  /\ amsl_baro_valid (air_data w) = true
  /\ (qnh_set w = true
      /\ 0 <= baro_health_counter w <= 10
      /\ (baro_health_counter w = 0 ->
          amsl_baro_valid (air_data (air_data_periodic w)) = false)).
Proof.
  cbv zeta. split; [|split].
  - eexists. reflexivity.
  - vm_compute. reflexivity.
  - apply (amsl_baro_valid_implies_qnh_set
             Sample.air_density Sample.sea_level_pressure Sample.sea_level_temp
             Sample.ref_pressure_of_height Sample.height_of_pressure
             Sample.cfg_amsl Sample.fix_at_sea_level).
    + eexists. reflexivity.
    + vm_compute. reflexivity.
Defined.

(** C3 as stated fails: from a valid state with the counter at 10, ten
    ticks leave [amsl_baro_valid] true; the eleventh clears it. *)
Lemma amsl_baro_still_valid_after_ten_ticks :
  let w := sample_abs_cb 0 Sample.p101325 sample_init in
  amsl_baro_valid (air_data w) = true
  /\ baro_health_counter w = 10
  /\ amsl_baro_valid (air_data (ticks 10 w)) <> false
  /\ amsl_baro_valid (air_data (ticks 11 w)) = false.
Proof.
  cbv zeta. split; [|split; [|split]]; vm_compute; try reflexivity. discriminate.
Qed.

Lemma watchdog_expires_after_eleven_ticks_witness :
  let w := sample_abs_cb 0 Sample.p101325 sample_init in
  amsl_baro_valid (air_data w) = true
  /\ baro_health_counter w = 10
  /\ ((forall k, (k <= 10)%nat -> amsl_baro_valid (air_data (ticks k w)) = true)
      /\ (forall k, (11 <= k)%nat -> amsl_baro_valid (air_data (ticks k w)) = false)
      /\ (forall n, (n <= 10)%nat -> falls (sample_valid_trace (repeat APeriodic n) w) = 0%nat)
      /\ (forall n, (11 <= n)%nat -> falls (sample_valid_trace (repeat APeriodic n) w) = 1%nat)
      /\ (forall n, rises (sample_valid_trace (repeat APeriodic n) w) = 0%nat)
      /\ (forall k sender_id p,
            let w' := sample_abs_cb sender_id p (ticks k w) in
            baro_health_counter w' = 10
            /\ (qnh_set w = true -> calc_amsl_baro (air_data w) = true ->
                amsl_baro_valid (air_data w') = true))).
Proof.
  cbv zeta. split; [|split].
  - vm_compute. reflexivity.
  - vm_compute. reflexivity.
  - apply (watchdog_expires_after_eleven_ticks
             Sample.air_density Sample.sea_level_pressure Sample.sea_level_temp
             Sample.ref_pressure_of_height Sample.height_of_pressure).
    + vm_compute. reflexivity.
    + vm_compute. reflexivity.
Defined.

Lemma qnh_auto_capture_fires_once_witness :
  let st := Sample.fix_at_sea_level in
  let l := [ASetQNH Sample.q1013_25; APressureAbs 0 Sample.p101325; APeriodic;
            APosition false F32.zero; APressureAbs 0 Sample.p647] in
  let samples := [(0, Sample.p647); (0, Sample.p101325)] in
  let w0 := sample_init in
  let feed := map (fun s => APressureAbs (fst s) (snd s)) ((0, Sample.p101325) :: samples) in
  global_coordinate_valid st = true
  /\ (1 <= length samples)%nat
  /\ (rises (sample_trace l w0) = 0%nat
      /\ (falls (sample_trace l w0) <= 1)%nat
      /\ (forall a w,
            calc_qnh_once (air_data w) = true ->
            calc_qnh_once (air_data (sample_step a w)) = false ->
            exists sender_id p,
              a = APressureAbs sender_id p /\ stateIsGlobalCoordinateValid w = true)
      /\ (auto_captures (sample_run l w0) <= 1)%nat
      /\ auto_captures (sample_run feed w0) = 1%nat
      /\ calc_qnh_once (air_data (sample_run feed w0)) = false
      /\ qnh (air_data (sample_run feed w0))
         = F32.div (Sample.ref_pressure_of_height Sample.p101325 (lla_alt st)) F32.hundred
      /\ qnh (air_data (sample_run feed w0))
         = qnh (air_data (sample_abs_cb 0 Sample.p101325 w0))).
Proof.
  cbv zeta. split; [|split].
  - reflexivity.
  - vm_compute. lia.
  - apply (qnh_auto_capture_fires_once
             Sample.air_density Sample.sea_level_pressure Sample.sea_level_temp
             Sample.ref_pressure_of_height Sample.height_of_pressure
             Sample.cfg_amsl Sample.fix_at_sea_level).
    + reflexivity.
    + vm_compute. lia.
Defined.

Lemma SetQNH_does_not_disarm_auto_capture_witness :
  let w1 := air_data_SetQNH Sample.q1013_25 sample_init in
  let w2 := sample_run [APeriodic; APressureDiff 0 Sample.p647] w1 in
  let w3 := sample_abs_cb 0 Sample.p101325 w2 in
  calc_qnh_once (air_data w2) = true
  /\ stateIsGlobalCoordinateValid w2 = true
  /\ (qnh (air_data w1) = Sample.q1013_25
      /\ qnh_set w1 = true
      /\ calc_qnh_once (air_data w1) = calc_qnh_once (air_data sample_init)
      /\ qnh (air_data w3)
         = F32.div (Sample.ref_pressure_of_height Sample.p101325
                      (stateGetPositionLla_f_alt w2)) F32.hundred
      /\ history w3
         = StoreQnh AutoCapture
             (F32.div (Sample.ref_pressure_of_height Sample.p101325
                         (stateGetPositionLla_f_alt w2)) F32.hundred) :: history w2
      /\ calc_qnh_once (air_data w3) = false).
Proof.
  cbv zeta. split; [|split].
  - vm_compute. reflexivity.
  - vm_compute. reflexivity.
  - apply (SetQNH_does_not_disarm_auto_capture
             Sample.air_density Sample.sea_level_pressure Sample.sea_level_temp
             Sample.ref_pressure_of_height Sample.height_of_pressure
             Sample.q1013_25 sample_init [APeriodic; APressureDiff 0 Sample.p647]
             0 Sample.p101325).
    + vm_compute. reflexivity.
    + vm_compute. reflexivity.
Defined.

Lemma amsl_baro_never_valid_when_disabled_witness :
  let cfg := default_config Sample.broadcast in
  let w := sample_run [ASetQNH Sample.q1013_25; APressureAbs 0 Sample.p101325; APeriodic]
             (air_data_init cfg (boot Sample.fix_at_sea_level)) in
  AIR_DATA_CALC_AMSL_BARO cfg = false
  /\ (AIR_DATA_CALC_AMSL_BARO (default_config Sample.broadcast) = false
      /\ amsl_baro_valid (air_data w) = false
      /\ air_data_get_amsl w = lla_alt (state w)).
Proof.
  cbv zeta. split.
  - reflexivity.
  - apply (amsl_baro_never_valid_when_disabled
             Sample.air_density Sample.sea_level_pressure Sample.sea_level_temp
             Sample.ref_pressure_of_height Sample.height_of_pressure
             Sample.broadcast (default_config Sample.broadcast) Sample.fix_at_sea_level).
    reflexivity.
Defined.

Lemma eas_from_dynamic_pressure_clamped_monotone_witness :
  let eas := eas_from_dynamic_pressure Sample.air_density in
  let q := S754_finite true 10600448 (-14) in
  let q1 := S754_finite true 10600448 (-14) in
  let q2 := Sample.p647 in
  positive_finite (two_div_rho_0 Sample.air_density) = true
  /\ F32.valid q1 = true
  /\ F32.valid q2 = true
  /\ F32.lt q F32.zero = true
  /\ F32.le q1 q2 = true
  /\ (F32.le F32.zero (eas q) = true
      /\ eas q = F32.zero
      /\ F32.le (eas q1) (eas q2) = true).
Proof.
  cbv zeta.
  assert (Hc : positive_finite (two_div_rho_0 Sample.air_density) = true)
    by (vm_compute; reflexivity).
  assert (V1 : F32.valid (S754_finite true 10600448 (-14)) = true)
    by (vm_compute; reflexivity).
  assert (V2 : F32.valid Sample.p647 = true) by (vm_compute; reflexivity).
  destruct (eas_from_dynamic_pressure_clamped_monotone Sample.air_density
              (S754_finite true 10600448 (-14)) (S754_finite true 10600448 (-14))
              Sample.p647 Hc V1 V2) as (_ & H1 & H2 & H3).
  split; [exact Hc|]. split; [exact V1|]. split; [exact V2|].
  split; [vm_compute; reflexivity|]. split; [vm_compute; reflexivity|].
  split; [exact H1|]. split.
  - apply H2. vm_compute. reflexivity.
  - apply H3. vm_compute. reflexivity.
Defined.

(** ** The further properties on concrete inputs *)

Local Abbreviation with_sample f :=
  (f Sample.air_density Sample.sea_level_pressure Sample.sea_level_temp
     Sample.ref_pressure_of_height Sample.height_of_pressure).
Local Abbreviation sample_temperature_cb :=
  (temperature_cb Sample.sea_level_pressure Sample.sea_level_temp).
Local Abbreviation sample_tas :=
  (tas_from_dynamic_pressure Sample.air_density).
Local Abbreviation sample_eas :=
  (eas_from_dynamic_pressure Sample.air_density).
Local Abbreviation sampled := (sample_abs_cb 0 Sample.p101325 sample_init).

(** The literal [15.f], a temperature. *)
Local Abbreviation t15 := (S754_finite false 15728640 (-20)).


Lemma watchdog_expires_without_pressure_samples_witness :
  let l := repeat APeriodic 5 ++ [ATemperature 0 t15; ASetQNH Sample.q1013_25]
           ++ repeat APeriodic 6 in
  sample_reachable Sample.cfg_amsl Sample.fix_at_sea_level sampled
  /\ amsl_baro_valid (air_data sampled) = true
  /\ none_of is_pressure_abs l = true
  /\ (11 <= count_actions is_periodic l)%nat
  /\ amsl_baro_valid (air_data (sample_run l sampled)) = false
  /\ air_data_get_amsl (sample_run l sampled) = lla_alt (state (sample_run l sampled)).
Proof.
  cbv zeta.
  assert (R : sample_reachable Sample.cfg_amsl Sample.fix_at_sea_level sampled).
  { exists [APressureAbs 0 Sample.p101325]. reflexivity. }
  destruct (with_sample watchdog_expires_without_pressure_samples
              Sample.cfg_amsl Sample.fix_at_sea_level sampled
              (repeat APeriodic 5 ++ [ATemperature 0 t15; ASetQNH Sample.q1013_25]
               ++ repeat APeriodic 6) R eq_refl)
    as (H1 & _ & H3).
  { vm_compute. lia. }
  split; [exact R|]. split; [vm_compute; reflexivity|]. split; [reflexivity|].
  split; [vm_compute; lia|]. split; [exact H1 | exact H3].
Defined.

Lemma accessor_holds_altitude_for_ten_ticks_witness :
  let l := repeat APeriodic 4 ++ [APressureDiff 0 Sample.p647] ++ repeat APeriodic 6 in
  amsl_baro_valid (air_data sampled) = true
  /\ none_of is_pressure_abs l = true
  /\ (count_actions is_periodic l <= 10)%nat
  /\ amsl_baro_valid (air_data (sample_run l sampled)) = true
  /\ air_data_get_amsl (sample_run l sampled) = amsl_baro (air_data sampled).
Proof.
  cbv zeta.
  assert (V : amsl_baro_valid (air_data sampled) = true) by (vm_compute; reflexivity).
  assert (K : (count_actions is_periodic
                 (repeat APeriodic 4 ++ [APressureDiff 0 Sample.p647]
                  ++ repeat APeriodic 6) <= 10)%nat) by (vm_compute; lia).
  split; [exact V|]. split; [reflexivity|]. split; [exact K|].
  apply (with_sample accessor_holds_altitude_for_ten_ticks 0 Sample.p101325 sample_init
           (repeat APeriodic 4 ++ [APressureDiff 0 Sample.p647] ++ repeat APeriodic 6)
           V eq_refl K).
Defined.

Lemma qnh_stays_unknown_without_fix_witness :
  let st := mkState false F32.zero F32.zero in
  let l := [APressureAbs 0 Sample.p101325; APeriodic; ATemperature 0 t15;
            APosition false Sample.p647; APressureAbs 0 Sample.p101325] in
  let w := sample_run l (air_data_init Sample.cfg_amsl (boot st)) in
  global_coordinate_valid st = false
  /\ none_of is_set_qnh l = true
  /\ none_of is_valid_position l = true
  /\ qnh_set w = false
  /\ calc_qnh_once (air_data w) = true
  /\ amsl_baro_valid (air_data w) = false
  /\ auto_captures w = 0%nat.
Proof.
  cbv zeta.
  destruct (with_sample qnh_stays_unknown_without_fix Sample.cfg_amsl
              (mkState false F32.zero F32.zero)
              [APressureAbs 0 Sample.p101325; APeriodic; ATemperature 0 t15;
               APosition false Sample.p647; APressureAbs 0 Sample.p101325]
              eq_refl eq_refl eq_refl)
    as (H1 & H2 & H3 & _ & H5 & _).
  repeat split; assumption.
Defined.

Lemma pressure_abs_cb_altitude_witness :
  let w' := sample_abs_cb 0 Sample.p101325 sample_init in
  calc_amsl_baro (air_data sample_init) = true
  /\ calc_qnh_once (air_data sample_init) && stateIsGlobalCoordinateValid sample_init = true
  /\ amsl_baro_valid (air_data w') = true
  /\ air_data_get_amsl w'
     = Sample.height_of_pressure Sample.p101325 (F32.mul (qnh (air_data w')) F32.hundred)
  /\ qnh (air_data w') = Sample.q1013_25.
Proof.
  cbv zeta.
  destruct (pressure_abs_cb_altitude Sample.ref_pressure_of_height
              Sample.height_of_pressure 0 Sample.p101325 sample_init eq_refl
              (or_intror eq_refl))
    as (H1 & H2 & H3).
  split; [reflexivity|]. split; [reflexivity|]. split; [exact H1|].
  split; [exact H2|]. rewrite H3. vm_compute. reflexivity.
Defined.

Lemma SetQNH_persists_after_capture_witness :
  let l := [APressureAbs 0 Sample.p647; APeriodic; APosition true Sample.p647;
            APressureAbs 0 Sample.p101325] in
  let w' := sample_run l (air_data_SetQNH Sample.p647 sampled) in
  calc_qnh_once (air_data sampled) = false
  /\ none_of is_set_qnh l = true
  /\ qnh (air_data w') = Sample.p647
  /\ qnh_set w' = true.
Proof.
  cbv zeta.
  assert (C : calc_qnh_once (air_data sampled) = false) by (vm_compute; reflexivity).
  destruct (with_sample SetQNH_persists_after_capture Sample.p647 sampled
              [APressureAbs 0 Sample.p647; APeriodic; APosition true Sample.p647;
               APressureAbs 0 Sample.p101325] C eq_refl)
    as (H1 & H2 & _).
  repeat split; assumption.
Defined.

Lemma temperature_uses_fresh_pressure_witness :
  let l := repeat APeriodic 9 in
  let w1 := sample_run l sampled in
  calc_tas_factor (air_data sample_init) = true
  /\ none_of is_pressure_abs l = true
  /\ (count_actions is_periodic l < 10)%nat
  /\ tas_factor (air_data (sample_temperature_cb 0 t15 w1))
     = get_tas_factor Sample.sea_level_pressure Sample.sea_level_temp Sample.p101325 t15.
Proof.
  cbv zeta.
  assert (K : (count_actions is_periodic (repeat APeriodic 9) < 10)%nat)
    by (vm_compute; lia).
  destruct (with_sample temperature_uses_fresh_pressure 0 0 Sample.p101325 t15
              sample_init (repeat APeriodic 9) eq_refl eq_refl K) as [H _].
  split; [reflexivity|]. split; [reflexivity|]. split; [exact K | exact H].
Defined.

Lemma temperature_holds_tas_factor_when_stale_witness :
  let l := repeat APeriodic 10 in
  sample_reachable Sample.cfg_amsl Sample.fix_at_sea_level sampled
  /\ none_of is_pressure_abs l = true
  /\ (10 <= count_actions is_periodic l)%nat
  /\ tas_factor (air_data (sample_temperature_cb 0 t15 (sample_run l sampled)))
     = tas_factor (air_data (sample_run l sampled)).
Proof.
  cbv zeta.
  assert (R : sample_reachable Sample.cfg_amsl Sample.fix_at_sea_level sampled).
  { exists [APressureAbs 0 Sample.p101325]. reflexivity. }
  assert (K : (10 <= count_actions is_periodic (repeat APeriodic 10))%nat)
    by (vm_compute; lia).
  destruct (with_sample temperature_holds_tas_factor_when_stale
              Sample.cfg_amsl Sample.fix_at_sea_level sampled (repeat APeriodic 10)
              0 t15 R eq_refl K) as [H _].
  split; [exact R|]. split; [reflexivity|]. split; [exact K | exact H].
Defined.

Lemma default_tas_factor_gives_eas_witness :
  let l := [APressureAbs 0 Sample.p101325; APeriodic; APressureDiff 0 Sample.p101325] in
  let w := sample_run l (air_data_init (default_config Sample.broadcast)
                           (boot Sample.fix_at_sea_level)) in
  none_of is_temperature l = true
  /\ tas_factor (air_data w) = F32.one
  /\ airspeed (air_data (pressure_diff_cb Sample.air_density 0 Sample.p647 w))
     = S754_finite false 8519989 (-18).
Proof.
  cbv zeta.
  destruct (with_sample default_tas_factor_gives_eas Sample.broadcast
              Sample.fix_at_sea_level
              [APressureAbs 0 Sample.p101325; APeriodic; APressureDiff 0 Sample.p101325]
              0 Sample.p647 eq_refl)
    as (H1 & _ & H3 & _).
  split; [reflexivity|]. split; [exact H1|].
  rewrite H3. vm_compute. reflexivity.
Defined.

Lemma tas_from_dynamic_pressure_monotone_witness :
  let q1 := S754_finite true 10600448 (-14) in
  positive_finite (two_div_rho_0 Sample.air_density) = true
  /\ positive_finite (tas_factor (air_data sample_init)) = true
  /\ F32.valid q1 = true
  /\ F32.valid Sample.p647 = true
  /\ F32.le q1 Sample.p647 = true
  /\ F32.le F32.zero (sample_tas sample_init Sample.p101325) = true
  /\ F32.le (sample_tas sample_init q1) (sample_tas sample_init Sample.p647) = true.
Proof.
  cbv zeta.
  assert (Hc : positive_finite (two_div_rho_0 Sample.air_density) = true)
    by (vm_compute; reflexivity).
  destruct (tas_from_dynamic_pressure_monotone Sample.air_density sample_init
              Sample.p101325 (S754_finite true 10600448 (-14)) Sample.p647
              Hc eq_refl eq_refl eq_refl) as [H1 H2].
  split; [exact Hc|]. split; [reflexivity|]. split; [reflexivity|].
  split; [reflexivity|]. split; [reflexivity|]. split; [exact H1|].
  apply H2. reflexivity.
Defined.

Lemma airspeed_is_never_negative_witness :
  let l := [APressureAbs 0 Sample.p101325; ATemperature 0 t15;
            APressureDiff 0 (S754_finite true 10600448 (-14));
            ATemperature 0 S754_nan; APressureDiff 0 Sample.p647] in
  let w := sample_run l sample_init in
  F32.lt (AIR_DATA_TAS_FACTOR Sample.cfg_amsl) F32.zero = false
  /\ F32.lt (airspeed (air_data w)) F32.zero = false
  /\ airspeed_pushes w = 2%nat.
Proof.
  cbv zeta.
  destruct (with_sample airspeed_is_never_negative Sample.cfg_amsl
              Sample.fix_at_sea_level
              [APressureAbs 0 Sample.p101325; ATemperature 0 t15;
               APressureDiff 0 (S754_finite true 10600448 (-14));
               ATemperature 0 S754_nan; APressureDiff 0 Sample.p647] eq_refl)
    as (_ & H2 & _).
  split; [reflexivity|]. split; [exact H2|]. vm_compute. reflexivity.
Defined.

Lemma eas_from_dynamic_pressure_special_values_witness :
  positive_finite (two_div_rho_0 Sample.air_density) = true
  /\ sample_eas (S754_infinity false) = S754_infinity false
  /\ sample_eas (S754_infinity true) = F32.zero
  /\ sample_eas S754_nan = F32.zero
  /\ F32.valid (sample_eas Sample.p647) = true.
Proof.
  assert (Hc : positive_finite (two_div_rho_0 Sample.air_density) = true)
    by (vm_compute; reflexivity).
  destruct (eas_from_dynamic_pressure_special_values Sample.air_density Sample.p647 true)
    as (H1 & _ & H3 & _ & H5).
  destruct (H5 Hc) as [H6 H7].
  repeat split; assumption.
Defined.

Lemma nan_temperature_poisons_airspeed_witness :
  let w' := sample_temperature_cb 0 S754_nan sampled in
  calc_tas_factor (air_data sampled) = true
  /\ 0 < baro_health_counter sampled
  /\ tas_factor (air_data w') = S754_nan
  /\ sample_tas w' Sample.p647 = S754_nan.
Proof.
  cbv zeta.
  assert (K : 0 < baro_health_counter sampled) by (vm_compute; reflexivity).
  destruct (nan_temperature_poisons_airspeed Sample.air_density Sample.sea_level_pressure
              Sample.sea_level_temp 0 Sample.p101325 t15 Sample.p647 sampled eq_refl K)
    as (_ & _ & H3 & H4).
  split; [vm_compute; reflexivity|]. split; [exact K|]. split; [exact H3 | exact H4].
Defined.
